(** * AcademiaTalk front end: session cache, guards and request flows

    A shallow embedding of the three page scripts of the client
    (forum page, profile page, login/registration page) and the
    properties of their session handling.

    The scripts run in a browser.  What they touch of it is modelled
    explicitly:
    - [localStorage] is a finite map from keys to strings, threaded as
      state;
    - every other effect (a request sent, a message shown, a navigation
      requested, a timer armed, a DOM field written) is appended to a
      log, in program order;
    - the answer of the network to a [fetch] is an input of the handler
      that awaits it;
    - a thrown exception aborts the enclosing block up to the nearest
      [try]/[catch], keeping the effects already performed; this
      includes the [TypeError] of a property read on [null] and of a
      value of the response that cannot be converted to a string where
      the script needs one.

    The pages are taken as shipped: every element looked up by id
    exists; [localStorage] is available and accepts every write. *)

From Stdlib Require Import SpecFloat.
From stdpp Require Import gmap strings list pretty.

Open Scope string_scope.

(** ** Strings and values *)

(** A JavaScript string is a sequence of UTF-16 code units; [length]
    counts code units. *)
Abbreviation jsstring := (list N).

(** A source literal (ASCII) as a JavaScript string. *)
Definition js (s : string) : jsstring :=
  map Ascii.N_of_ascii (String.list_ascii_of_string s).

(** White space and line terminators of ECMAScript: the code units that
    [String.prototype.trim] strips and that the regular expression class
    [\s] matches. *)
Definition is_space (c : N) : bool :=
  ((9 <=? c) && (c <=? 13) ||
   (c =? 32) || (c =? 160) || (c =? 5760) ||
   ((8192 <=? c) && (c <=? 8202)) ||
   (c =? 8232) || (c =? 8233) || (c =? 8239) || (c =? 8287) ||
   (c =? 12288) || (c =? 65279))%N.

Fixpoint trim_start (s : jsstring) : jsstring :=
  match s with
  | c :: s' => if is_space c then trim_start s' else s
  | [] => []
  end.

(** [s.trim()] *)
Definition trim (s : jsstring) : jsstring :=
  rev (trim_start (rev (trim_start s))).

(** The values a handler meets: what [response.json()] can resolve to,
    and [undefined] for a property that is not there.  Numbers are
    IEEE 754 doubles. *)
#[warnings="-register-all"]
Inductive value : Type :=
| VUndefined
| VNull
| VBool (b : bool)
| VNum (f : spec_float)
| VStr (s : jsstring)
| VArr (items : list value)
| VObj (props : list (jsstring * value)).

(** ToBoolean: the test of [if (v)] and [!v]. *)
Definition truthy (v : value) : bool :=
  match v with
  | VUndefined | VNull => false
  | VBool b => b
  | VNum (S754_zero _) | VNum S754_nan => false
  | VNum _ => true
  | VStr s => negb (bool_decide (s = []))
  | VArr _ | VObj _ => true
  end.

Definition nullish (v : value) : bool :=
  match v with
  | VUndefined | VNull => true
  | _ => false
  end.

Fixpoint own_prop (props : list (jsstring * value)) (k : jsstring) : value :=
  match props with
  | [] => VUndefined
  | (k', v) :: rest => if bool_decide (k' = k) then v else own_prop rest k
  end.

(** [v.k] for a value that is neither [null] nor [undefined], and a key
    [k] among those the scripts read ([success], [message], [data],
    [name], ...): none of them is an inherited property, an index or
    [length], so only an object's own properties can answer. *)
Definition prop (v : value) (k : string) : value :=
  match v with
  | VObj props => own_prop props (js k)
  | _ => VUndefined
  end.

Definition has_own (props : list (jsstring * value)) (k : jsstring) : bool :=
  existsb (λ p, bool_decide (p.1 = k)) props.

(** Whether a value can be turned into a string (ToString, and
    ToPrimitive as [+] and [new Date] apply it).  A primitive always
    can.  An object read from JSON inherits [toString] and [valueOf]
    from [Object.prototype]; an own property named [toString] hides the
    first with something that is not a function, and the inherited
    [valueOf] returns the object itself, so the conversion throws a
    [TypeError]; an own [valueOf] alone does no harm.  An array is
    converted by [join], which converts each element ([null] and
    [undefined] give the empty string). *)
Fixpoint convertible (v : value) : bool :=
  match v with
  | VObj props => negb (has_own props (js "toString"))
  | VArr items => forallb convertible items
  | _ => true
  end.

(** ** Requests and their outcomes *)

(** The body of a response as [response.json()] sees it. *)
Inductive Body : Type :=
| Unparseable                 (* the promise of [json()] rejects *)
| Parsed (data : value).

Record Response : Type := mkResponse { status : N; body : Body }.

(** How an awaited [fetch] settles. *)
Inductive FetchOutcome : Type :=
| Unreachable                 (* the promise of [fetch] rejects *)
| Responded (r : Response).

(** The second argument of [fetch]; [path] is the part of the URL after
    [API_BASE_URL], [payload] the object given to [JSON.stringify] for
    the request body. *)
Record Request : Type := mkRequest {
  path : string;
  method : string;
  credentials : bool;           (* [credentials: 'include'] *)
  payload : option (list (string * jsstring))
}.

Inductive Exn : Type :=
| TypeError                   (* a property read on [null] or [undefined], a call of a
                                 non-function, a value that cannot be converted *)
| FetchRejected
| JsonRejected.

(** ** Effects *)

(** The closures handed to [setTimeout]. *)
Inductive Timer : Type :=
| HideMessage                 (* in [showMessage] *)
| ExpireSession               (* in [loadProfile] and [handleCreatePost] *)
| OpenForum.                  (* in [handleLogin] *)

(** Text handed to the page: a literal of the script, a value of the
    response, a value followed by a literal ([data.message + '...']),
    or a date run through [formatDate]. *)
Inductive Text : Type :=
| Lit (s : string)
| Val (v : value)
| Cat (v : value) (suffix : string)
| DateOf (v : value).

(** What [loadPosts] writes into the posts container. *)
Inductive PostsView : Type :=
| NoPostsYet
| LoadFailed
| Posts (items : list value).

Inductive Event : Type :=
| EvPreventDefault
| EvMessage (text : Text) (type : string)
| EvLoading (show : bool)
| EvConsoleError (label : string) (e : Exn)
| EvFetch (req : Request)
| EvSetItem (key : string) (v : jsstring)
| EvRemoveItem (key : string)
| EvNavigate (page : string)
| EvTimeout (cb : Timer) (ms : N)
| EvFormReset (id : string)
| EvSetText (id : string) (text : Text)
| EvDisplay (id : string) (display : string)
| EvMessageHidden
| EvPosts (view : PostsView)
| EvListen (id : string) (event : string).

(** [localStorage]. *)
Abbreviation Storage := (gmap string jsstring).

(** The result of running a piece of script from a given storage:
    the value returned or the exception thrown, the storage left, and
    the effects performed, oldest first. *)
Record Run (A : Type) : Type := mkRun {
  result : Exn + A;
  store : Storage;
  log : list Event
}.
Arguments mkRun {A} _ _ _.
Arguments result {A} _.
Arguments store {A} _.
Arguments log {A} _.

Definition M (A : Type) : Type := Storage → Run A.

Definition ret {A} (a : A) : M A := λ s, mkRun (inr a) s [].

Definition bind {A B} (m : M A) (k : A → M B) : M B := λ s,
  match m s with
  | mkRun (inl e) s1 l1 => mkRun (inl e) s1 l1
  | mkRun (inr a) s1 l1 =>
      match k a s1 with
      | mkRun res s2 l2 => mkRun res s2 (l1 ++ l2)
      end
  end.

Definition throw {A} (e : Exn) : M A := λ s, mkRun (inl e) s [].

(** [try { m } catch (error) { h error }] *)
Definition try_catch {A} (m : M A) (h : Exn → M A) : M A := λ s,
  match m s with
  | mkRun (inl e) s1 l1 =>
      match h e s1 with
      | mkRun res s2 l2 => mkRun res s2 (l1 ++ l2)
      end
  | mkRun (inr a) s1 l1 => mkRun (inr a) s1 l1
  end.

Notation "x <- m ; k" := (bind m (λ x, k))
  (at level 20, m at level 100, k at level 200, only parsing).
Notation "m ;; k" := (bind m (λ _, k))
  (at level 100, k at level 200, right associativity, only parsing).

Definition emit (e : Event) : M unit := λ s, mkRun (inr ()) s [e].

(** [localStorage.getItem(k)]: [None] is [null]. *)
Definition getItem (k : string) : M (option jsstring) :=
  λ s, mkRun (inr (s !! k)) s [].

Definition setItem (k : string) (v : jsstring) : M unit :=
  λ s, mkRun (inr ()) (<[k:=v]> s) [EvSetItem k v].

(** Removing an absent key is not an error. *)
Definition removeItem (k : string) : M unit :=
  λ s, mkRun (inr ()) (delete k s) [EvRemoveItem k].

(** [await fetch(url, req)], settled as [o]: the request leaves, the
    function is suspended, and it resumes with the response or with the
    rejection thrown at the [await]. *)
Definition send (req : Request) : M unit := emit (EvFetch req).

Definition settle (o : FetchOutcome) : M Response :=
  match o with
  | Unreachable => throw FetchRejected
  | Responded r => ret r
  end.

Definition fetch (req : Request) (o : FetchOutcome) : M Response :=
  send req;;
  settle o.

(** [await response.json()] *)
Definition json (r : Response) : M value :=
  match body r with
  | Unparseable => throw JsonRejected
  | Parsed d => ret d
  end.

(** [v.k], throwing on [null] and [undefined]. *)
Definition get (v : value) (k : string) : M value :=
  if nullish v then throw TypeError else ret (prop v k).

Definition navigate (page : string) : M unit := emit (EvNavigate page).

Definition setTimeout (cb : Timer) (ms : N) : M unit := emit (EvTimeout cb ms).

(** [JSON.stringify(v)] as [setItem] stores it.  [JSON.stringify] is
    the host's; on [undefined] it returns [undefined], which [setItem]
    turns into the string ["undefined"]. *)
Definition stringified (JSON_stringify : value → jsstring) (v : value) : jsstring :=
  match v with
  | VUndefined => js "undefined"
  | _ => JSON_stringify v
  end.

(** [localStorage.setItem(k, JSON.stringify(v))] *)
Definition setItem_json (JSON_stringify : value → jsstring)
    (k : string) (v : value) : M unit :=
  setItem k (stringified JSON_stringify v).

(** ** Text given to the page *)

(** [element.textContent = t]: a value that is not a string already is
    converted ([null] and [undefined] become the empty text); the
    assignment throws when the conversion does, and the element keeps
    its text. *)
Definition text_ok (t : Text) : bool :=
  match t with
  | Val v => convertible v
  | Lit _ | Cat _ _ | DateOf _ => true
  end.

Definition setText (id : string) (t : Text) : M unit :=
  if text_ok t then emit (EvSetText id t) else throw TypeError.

(** [v + '...'], evaluated by the caller before the call it is an
    argument of. *)
Definition string_concat (v : value) (suffix : string) : M Text :=
  if convertible v then ret (Cat v suffix) else throw TypeError.

(** ** Helpers shared by the three scripts

    [showMessage] and [toggleLoading] are defined, identically, in each
    of the three files.  In [showMessage] the text is assigned first:
    when that throws, neither the class is set nor the timer armed. *)

Definition showMessage (text : Text) (type : string) : M unit :=
  if text_ok text then
    emit (EvMessage text type);;
    setTimeout HideMessage 5000
  else
    throw TypeError.

Definition toggleLoading (show : bool) : M unit := emit (EvLoading show).

(** The body of each timer closure. *)
Definition fire (cb : Timer) : M unit :=
  match cb with
  | HideMessage => emit EvMessageHidden
  | ExpireSession =>
      removeItem "user";;
      removeItem "isLoggedIn";;
      navigate "index.html"
  | OpenForum => navigate "forum.html"
  end.

(** ** The forum page ([js/forum.js]) *)

Module Forum.

Definition profile_request : Request :=
  mkRequest "/users/profile.php" "GET" true None.

Definition logout_request : Request :=
  mkRequest "/auth/logout.php" "POST" true None.

Definition list_request : Request :=
  mkRequest "/posts/list.php" "GET" true None.

Definition create_request (title content : jsstring) : Request :=
  mkRequest "/posts/create.php" "POST" true
            (Some [("title", title); ("content", content)]).

(** [checkAuthentication]; [o] settles the profile request, if one is
    sent. *)
Definition checkAuthentication (o : FetchOutcome) : M bool :=
  isLoggedIn <- getItem "isLoggedIn";
  if negb (bool_decide (isLoggedIn = Some (js "true"))) then
    navigate "index.html";;
    ret false
  else
    try_catch
      (response <- fetch profile_request o;
       data <- json response;
       success <- get data "success";
       if negb (truthy success) then
         removeItem "user";;
         removeItem "isLoggedIn";;
         navigate "index.html";;
         ret false
       else
         ret true)
      (λ error,
         emit (EvConsoleError "Authentication check error:" error);;
         showMessage (Lit "Failed to verify authentication") "error";;
         ret false).

(** [handleLogout] *)
Definition handleLogout (o : FetchOutcome) : M unit :=
  try_catch
    (response <- fetch logout_request o;
     data <- json response;
     removeItem "user";;
     removeItem "isLoggedIn";;
     navigate "index.html")
    (λ error,
       emit (EvConsoleError "Logout error:" error);;
       removeItem "user";;
       removeItem "isLoggedIn";;
       navigate "index.html").

(** [data.data.length === 0] *)
Definition length_is_zero (v : value) : M bool :=
  match v with
  | VUndefined | VNull => throw TypeError
  | VArr items => ret (bool_decide (items = []))
  | VStr s => ret (bool_decide (s = []))
  | VObj props =>
      ret match own_prop props (js "length") with
          | VNum (S754_zero _) => true
          | _ => false
          end
  | VBool _ | VNum _ => ret false
  end.

(** [escapeHtml(text)] and [formatDate(dateString)] as
    [createPostHTML] calls them: the first assigns [text] to the
    [textContent] of a fresh element, the second hands [dateString] to
    [new Date]; either throws on a value that cannot be converted.
    What they return for a string is described by [escapeHtml] and
    [formatDate] below. *)
Definition escaped (text : value) : M unit :=
  if convertible text then ret () else throw TypeError.

Definition dated (dateString : value) : M unit :=
  if convertible dateString then ret () else throw TypeError.

(** [createPostHTML(post)]: the four substitutions of the template, in
    order; [post.title] throws on a [null] post.  The markup is not
    spelled out: the page is given the post, see [EvPosts]. *)
Definition createPostHTML (post : value) : M value :=
  title <- get post "title";
  escaped title;;
  author_name <- get post "author_name";
  escaped author_name;;
  created_at <- get post "created_at";
  dated created_at;;
  content <- get post "content";
  escaped content;;
  ret post.

(** [items.map(f)] *)
Fixpoint mapM {A B} (f : A → M B) (items : list A) : M (list B) :=
  match items with
  | [] => ret []
  | x :: rest =>
      y <- f x;
      ys <- mapM f rest;
      ret (y :: ys)
  end.

(** [data.data.map(post => createPostHTML(post))]: only an array has
    [map]. *)
Definition map_createPostHTML (v : value) : M (list value) :=
  match v with
  | VArr items => mapM createPostHTML items
  | _ => throw TypeError
  end.

(** [loadPosts], cut at its [await fetch]: what runs before the
    function is suspended, and what runs once the request has settled.
    A caller that does not await [loadPosts()] runs on in between. *)
Definition loadPosts_issue : M unit :=
  toggleLoading true;;
  send list_request.

Definition loadPosts_resume (o : FetchOutcome) : M unit :=
  try_catch
    (response <- settle o;
     data <- json response;
     toggleLoading false;;
     success <- get data "success";
     if truthy success then
       posts <- get data "data";
       empty <- length_is_zero posts;
       if empty then
         emit (EvPosts NoPostsYet)
       else
         items <- map_createPostHTML posts;
         emit (EvPosts (Posts items))
     else
       message <- get data "message";
       showMessage (Val message) "error";;
       emit (EvPosts LoadFailed))
    (λ error,
       toggleLoading false;;
       emit (EvConsoleError "Load posts error:" error);;
       showMessage (Lit "Failed to connect to server") "error";;
       emit (EvPosts LoadFailed)).

Definition loadPosts (o : FetchOutcome) : M unit :=
  loadPosts_issue;;
  loadPosts_resume o.

(** [handleCreatePost]: [titleValue] and [contentValue] are the values
    of the two form fields, [o] settles the create request and [o_list]
    the request of the [loadPosts()] that follows a success. *)
Definition handleCreatePost (titleValue contentValue : jsstring)
    (o o_list : FetchOutcome) : M unit :=
  emit EvPreventDefault;;
  let title := trim titleValue in
  let content := trim contentValue in
  if (length title <? 5)%nat || (200 <? length title)%nat then
    showMessage (Lit "Title must be between 5 and 200 characters") "error"
  else if (length content <? 10)%nat || (5000 <? length content)%nat then
    showMessage (Lit "Content must be between 10 and 5000 characters") "error"
  else
    try_catch
      (response <- fetch (create_request title content) o;
       data <- json response;
       success <- get data "success";
       if truthy success then
         message <- get data "message";
         showMessage (Val message) "success";;
         emit (EvFormReset "createPostForm");;
         setText "titleCount" (Lit "0");;
         setText "contentCount" (Lit "0");;
         loadPosts o_list
       else if (status response =? 401)%N then
         showMessage (Lit "Session expired. Please login again.") "error";;
         setTimeout ExpireSession 2000
       else
         message <- get data "message";
         showMessage (Val message) "error")
      (λ error,
         emit (EvConsoleError "Create post error:" error);;
         showMessage (Lit "Failed to create post. Please try again.") "error").

(** The [DOMContentLoaded] listener. *)
Definition onLoad (o_profile o_list : FetchOutcome) : M unit :=
  isAuthenticated <- checkAuthentication o_profile;
  if negb isAuthenticated then
    ret ()
  else
    loadPosts_issue;;
    emit (EvListen "createPostForm" "submit");;
    emit (EvListen "logoutBtn" "click");;
    emit (EvListen "postTitle" "input");;
    emit (EvListen "postContent" "input");;
    loadPosts_resume o_list.

(** [updateCharCount]: [value] is [input.value] and [counter] the id of
    the counter element, whose text becomes the length, a number, hence
    its decimal digits. *)
Definition updateCharCount (value : jsstring) (counter : string) : M unit :=
  setText counter (Lit (pretty (length value))).

(** What [formatDate] returns: one of its three relative forms,
    ['Just now'] or [`${n} ${unit}${plural ? 's' : ''} ago`], or what
    [toLocaleDateString] gives, which is the host's. *)
Inductive DateText : Type :=
| JustNow
| Ago (n : Z) (unit_name : string) (plural : bool)
| LocaleDate.

(** [formatDate].  The two [Date] objects are the host's; the function
    computes with their difference [now - date] in milliseconds: an
    integer, time values being integers, or [NaN], here [None], when
    [dateString] does not parse.  [Math.floor(diffMs / k)] is the floor
    of the quotient (differences of time values are below 2^53 in size,
    where the rounded quotient has the same floor), and a comparison
    with [NaN] is false. *)
Definition formatDate (diffMs : option Z) : DateText :=
  match diffMs with
  | None => LocaleDate
  | Some diffMs =>
      let diffMins := (diffMs / 60000)%Z in
      let diffHours := (diffMs / 3600000)%Z in
      let diffDays := (diffMs / 86400000)%Z in
      if (diffMins <? 1)%Z then JustNow
      else if (diffMins <? 60)%Z then Ago diffMins "minute" (1 <? diffMins)%Z
      else if (diffHours <? 24)%Z then Ago diffHours "hour" (1 <? diffHours)%Z
      else if (diffDays <? 7)%Z then Ago diffDays "day" (1 <? diffDays)%Z
      else LocaleDate
  end.

(** How the DOM writes one code unit of a text node into [innerHTML]:
    the ampersand, the two angle brackets and the no-break space become
    character references, everything else stays. *)
Definition escape_unit (c : N) : jsstring :=
  if (c =? 38)%N then js "&amp;"
  else if (c =? 60)%N then js "&lt;"
  else if (c =? 62)%N then js "&gt;"
  else if (c =? 160)%N then js "&nbsp;"
  else [c].

(** [escapeHtml], for a string argument: the string becomes the one text
    node of a fresh [div] ([div.textContent = text]) and the function
    returns the serialization of that node ([div.innerHTML]). *)
Definition escapeHtml (text : jsstring) : jsstring :=
  flat_map escape_unit text.

End Forum.

(** ** The profile page (second script, "Profile Module") *)

Module Profile.
Section Script.

Variable JSON_stringify : value → jsstring.

Definition profile_request : Request :=
  mkRequest "/users/profile.php" "GET" true None.

Definition logout_request : Request :=
  mkRequest "/auth/logout.php" "POST" true None.

(** [checkAuthentication]: synchronous, reads the cache only. *)
Definition checkAuthentication : M bool :=
  isLoggedIn <- getItem "isLoggedIn";
  if negb (bool_decide (isLoggedIn = Some (js "true"))) then
    navigate "index.html";;
    ret false
  else
    ret true.

(** [handleLogout]: the response is not read. *)
Definition handleLogout (o : FetchOutcome) : M unit :=
  try_catch
    (response <- fetch logout_request o;
     removeItem "user";;
     removeItem "isLoggedIn";;
     navigate "index.html")
    (λ error,
       emit (EvConsoleError "Logout error:" error);;
       removeItem "user";;
       removeItem "isLoggedIn";;
       navigate "index.html").

(** [formatDate(dateString)]: [new Date] converts its argument and
    throws when that cannot be done; the text is the host's
    [toLocaleDateString]. *)
Definition formatDate (dateString : value) : M Text :=
  if convertible dateString then ret (DateOf dateString) else throw TypeError.

(** [loadProfile], cut at its [await fetch] like [Forum.loadPosts]. *)
Definition loadProfile_issue : M unit :=
  toggleLoading true;;
  send profile_request.

Definition loadProfile_resume (o : FetchOutcome) : M unit :=
  try_catch
    (response <- settle o;
     data <- json response;
     toggleLoading false;;
     success <- get data "success";
     if truthy success then
       user <- get data "data";
       name <- get user "name";
       setText "profileName" (Val name);;
       email <- get user "email";
       setText "profileEmail" (Val email);;
       user_id <- get user "user_id";
       setText "profileUserId" (Val user_id);;
       created_at <- get user "created_at";
       date <- formatDate created_at;
       setText "profileCreatedAt" date;;
       emit (EvDisplay "profileCard" "block");;
       setItem_json JSON_stringify "user" user
     else if (status response =? 401)%N then
       showMessage (Lit "Session expired. Please login again.") "error";;
       setTimeout ExpireSession 2000
     else
       message <- get data "message";
       showMessage (Val message) "error")
    (λ error,
       toggleLoading false;;
       emit (EvConsoleError "Load profile error:" error);;
       showMessage (Lit "Failed to load profile information") "error").

Definition loadProfile (o : FetchOutcome) : M unit :=
  loadProfile_issue;;
  loadProfile_resume o.

(** The [DOMContentLoaded] listener. *)
Definition onLoad (o : FetchOutcome) : M unit :=
  isAuthenticated <- checkAuthentication;
  if negb isAuthenticated then
    ret ()
  else
    loadProfile_issue;;
    emit (EvListen "logoutBtn" "click");;
    loadProfile_resume o.

End Script.
End Profile.

(** ** Regular expressions, as far as [isValidEmail] needs them *)

Inductive regex : Type :=
| Nothing                     (* matches no string *)
| Empty                       (* matches the empty string *)
| Class (p : N → bool)        (* one code unit of a class *)
| Seq (r1 r2 : regex)
| Alt (r1 r2 : regex)
| Star (r : regex).

(** [r+] *)
Definition Plus (r : regex) : regex := Seq r (Star r).

Fixpoint nullable (r : regex) : bool :=
  match r with
  | Nothing | Class _ => false
  | Empty | Star _ => true
  | Seq r1 r2 => nullable r1 && nullable r2
  | Alt r1 r2 => nullable r1 || nullable r2
  end.

(** What is left of [r] after reading [c]. *)
Fixpoint after (c : N) (r : regex) : regex :=
  match r with
  | Nothing | Empty => Nothing
  | Class p => if p c then Empty else Nothing
  | Seq r1 r2 =>
      if nullable r1 then Alt (Seq (after c r1) r2) (after c r2)
      else Seq (after c r1) r2
  | Alt r1 r2 => Alt (after c r1) (after c r2)
  | Star r' => Seq (after c r') r
  end.

(** [/^r$/.test(s)] *)
Fixpoint regex_test (r : regex) (s : jsstring) : bool :=
  match s with
  | [] => nullable r
  | c :: s' => regex_test (after c r) s'
  end.

(** The strings a regular expression denotes. *)
Inductive Matches : regex → jsstring → Prop :=
| matches_empty : Matches Empty []
| matches_class p c : p c = true → Matches (Class p) [c]
| matches_seq r1 r2 s1 s2 :
    Matches r1 s1 → Matches r2 s2 → Matches (Seq r1 r2) (s1 ++ s2)%list
| matches_alt_l r1 r2 s : Matches r1 s → Matches (Alt r1 r2) s
| matches_alt_r r1 r2 s : Matches r2 s → Matches (Alt r1 r2) s
| matches_star_nil r : Matches (Star r) []
| matches_star_more r s1 s2 :
    Matches r s1 → Matches (Star r) s2 → Matches (Star r) (s1 ++ s2)%list.

(** ** The entry page (third script, "Authentication Module") *)

Module Auth.
Section Script.

Variable JSON_stringify : value → jsstring.

Definition at_sign : N := 64.
Definition full_stop : N := 46.

(** [[^\s@]] *)
Definition not_space_at (c : N) : bool :=
  negb (is_space c || (c =? at_sign)%N).

(** [/^[^\s@]+@[^\s@]+\.[^\s@]+$/] *)
Definition emailRegex : regex :=
  Seq (Plus (Class not_space_at))
      (Seq (Class (λ c, c =? at_sign)%N)
           (Seq (Plus (Class not_space_at))
                (Seq (Class (λ c, c =? full_stop)%N)
                     (Plus (Class not_space_at))))).

Definition isValidEmail (email : jsstring) : bool := regex_test emailRegex email.

Definition register_request (name email password : jsstring) : Request :=
  mkRequest "/auth/register.php" "POST" false
            (Some [("name", name); ("email", email); ("password", password)]).

Definition login_request (email password : jsstring) : Request :=
  mkRequest "/auth/login.php" "POST" true
            (Some [("email", email); ("password", password)]).

Definition profile_request : Request :=
  mkRequest "/users/profile.php" "GET" true None.

(** [handleRegister]; the three arguments are the values of the form
    fields. *)
Definition handleRegister (nameValue emailValue passwordValue : jsstring)
    (o : FetchOutcome) : M unit :=
  emit EvPreventDefault;;
  let name := trim nameValue in
  let email := trim emailValue in
  let password := passwordValue in
  if (length name <? 3)%nat || (100 <? length name)%nat then
    showMessage (Lit "Name must be between 3 and 100 characters") "error"
  else if negb (isValidEmail email) || (100 <? length email)%nat then
    showMessage (Lit "Please enter a valid email address") "error"
  else if (length password <? 6)%nat then
    showMessage (Lit "Password must be at least 6 characters long") "error"
  else
    toggleLoading true;;
    try_catch
      (response <- fetch (register_request name email password) o;
       data <- json response;
       toggleLoading false;;
       success <- get data "success";
       if truthy success then
         message <- get data "message";
         text <- string_concat message " Please login to continue.";
         showMessage text "success";;
         emit (EvFormReset "registerForm")
       else
         message <- get data "message";
         showMessage (Val message) "error")
      (λ error,
         toggleLoading false;;
         emit (EvConsoleError "Registration error:" error);;
         showMessage (Lit "Failed to connect to server. Please try again later.") "error").

(** [handleLogin] *)
Definition handleLogin (emailValue passwordValue : jsstring)
    (o : FetchOutcome) : M unit :=
  emit EvPreventDefault;;
  let email := trim emailValue in
  let password := passwordValue in
  if negb (isValidEmail email) then
    showMessage (Lit "Please enter a valid email address") "error"
  else if bool_decide (password = []) then
    showMessage (Lit "Password is required") "error"
  else
    toggleLoading true;;
    try_catch
      (response <- fetch (login_request email password) o;
       data <- json response;
       toggleLoading false;;
       success <- get data "success";
       if truthy success then
         user <- get data "data";
         setItem_json JSON_stringify "user" user;;
         setItem "isLoggedIn" (js "true");;
         message <- get data "message";
         text <- string_concat message " Redirecting...";
         showMessage text "success";;
         setTimeout OpenForum 1000
       else
         message <- get data "message";
         showMessage (Val message) "error")
      (λ error,
         toggleLoading false;;
         emit (EvConsoleError "Login error:" error);;
         showMessage (Lit "Failed to connect to server. Please try again later.") "error").

(** [verifySession], cut at its [await fetch]. *)
Definition verifySession_issue : M unit := send profile_request.

Definition verifySession_resume (o : FetchOutcome) : M unit :=
  try_catch
    (response <- settle o;
     data <- json response;
     success <- get data "success";
     if truthy success then
       navigate "forum.html"
     else
       removeItem "user";;
       removeItem "isLoggedIn")
    (λ error,
       emit (EvConsoleError "Session verification error:" error)).

Definition verifySession (o : FetchOutcome) : M unit :=
  verifySession_issue;;
  verifySession_resume o.

(** [checkLoginStatus] *)
Definition checkLoginStatus (o : FetchOutcome) : M unit :=
  isLoggedIn <- getItem "isLoggedIn";
  if bool_decide (isLoggedIn = Some (js "true")) then
    verifySession o
  else
    ret ().

(** The [DOMContentLoaded] listener.  [checkLoginStatus()] returns as
    soon as [verifySession] is suspended; the two listeners are attached
    before the verification resumes. *)
Definition onLoad (o : FetchOutcome) : M unit :=
  isLoggedIn <- getItem "isLoggedIn";
  let verifying := bool_decide (isLoggedIn = Some (js "true")) in
  (if verifying then verifySession_issue else ret ());;
  emit (EvListen "loginForm" "submit");;
  emit (EvListen "registerForm" "submit");;
  if verifying then verifySession_resume o else ret ().

End Script.
End Auth.

(** ** How the scripts read a settled request

    No script names the four results; they are the four places a
    settled request can lead to in [Profile.loadProfile] and
    [Forum.handleCreatePost]: the [catch] block (the request or
    [json()] rejected, or the body is [null], so that [data.success]
    throws), the [if (data.success)] branch, the
    [response.status === 401] branch under its [else], and the last
    [else]. *)

Inductive Result : Type :=
| Ok (data : value)
| DomainError (message : value)
| SessionInvalid
| TransportFailure.

Definition classify (o : FetchOutcome) : Result :=
  match o with
  | Unreachable => TransportFailure
  | Responded r =>
      match body r with
      | Unparseable => TransportFailure
      | Parsed data =>
          if nullish data then TransportFailure
          else if truthy (prop data "success") then Ok data
          else if (status r =? 401)%N then SessionInvalid
          else DomainError (prop data "message")
      end
  end.

(** What a [catch] block can receive when the request did not yield a
    readable answer. *)
Inductive Thrown : FetchOutcome → Exn → Prop :=
| thrown_fetch : Thrown Unreachable FetchRejected
| thrown_json st : Thrown (Responded (mkResponse st Unparseable)) JsonRejected
| thrown_null st d :
    nullish d = true → Thrown (Responded (mkResponse st (Parsed d))) TypeError.

(** The reading of the interface description: a 401 status is
    [SessionInvalid] whatever the body says; otherwise as above. *)
Definition classify_status_first (o : FetchOutcome) : Result :=
  match o with
  | Unreachable => TransportFailure
  | Responded r => if (status r =? 401)%N then SessionInvalid else classify o
  end.

(** The server answered and reported a failure. *)
Definition reported_failure (o : FetchOutcome) : bool :=
  match classify o with
  | DomainError _ | SessionInvalid => true
  | _ => false
  end.

(** The server answered and reported success. *)
Definition succeeded (o : FetchOutcome) : bool :=
  match classify o with
  | Ok _ => true
  | _ => false
  end.

(** The server answered 401 with a failure. *)
Definition expired (o : FetchOutcome) : bool :=
  match classify o with
  | SessionInvalid => true
  | _ => false
  end.

(** The server reported success with a message that can be shown. *)
Definition announced (o : FetchOutcome) : bool :=
  match classify o with
  | Ok data => convertible (prop data "message")
  | _ => false
  end.

(** A post that [createPostHTML] renders: not [null], and each of the
    four fields of the template can be converted. *)
Definition renderable (post : value) : bool :=
  negb (nullish post) &&
  convertible (prop post "title") &&
  convertible (prop post "author_name") &&
  convertible (prop post "created_at") &&
  convertible (prop post "content").

(** A user record that [loadProfile] shows: there is one, and each of
    the four fields written to the page can be converted. *)
Definition showable (user : value) : bool :=
  negb (nullish user) &&
  convertible (prop user "name") &&
  convertible (prop user "email") &&
  convertible (prop user "user_id") &&
  convertible (prop user "created_at").

(** ** Reading a log *)

Definition is_fetch (e : Event) : bool :=
  match e with EvFetch _ => true | _ => false end.

Definition is_cache_write (e : Event) : bool :=
  match e with EvSetItem _ _ | EvRemoveItem _ => true | _ => false end.

Definition is_navigation (e : Event) : bool :=
  match e with EvNavigate _ => true | _ => false end.

Definition is_message (e : Event) : bool :=
  match e with EvMessage _ _ => true | _ => false end.

Definition is_expiry_timer (e : Event) : bool :=
  match e with EvTimeout ExpireSession _ => true | _ => false end.

Definition shows_profile (e : Event) : bool :=
  match e with
  | EvDisplay id _ => String.eqb id "profileCard"
  | _ => false
  end.

Definition is_listener (e : Event) : bool :=
  match e with EvListen _ _ => true | _ => false end.

Definition is_loading (e : Event) : bool :=
  match e with EvLoading _ => true | _ => false end.

Definition is_form_reset (e : Event) : bool :=
  match e with EvFormReset _ => true | _ => false end.

Definition is_posts_view (e : Event) : bool :=
  match e with EvPosts _ => true | _ => false end.

Definition is_timer (cb : Timer) (e : Event) : bool :=
  match e, cb with
  | EvTimeout HideMessage _, HideMessage
  | EvTimeout ExpireSession _, ExpireSession
  | EvTimeout OpenForum _, OpenForum => true
  | _, _ => false
  end.

(** The state of the spinner after a log: [None] when the log never
    touched it. *)
Definition spinner (l : list Event) : option bool :=
  match last (List.filter is_loading l) with
  | Some (EvLoading show) => Some show
  | _ => None
  end.

(** The cache holds neither entry. *)
Definition cleared (s : Storage) : Prop :=
  s !! "user" = None ∧ s !! "isLoggedIn" = None.

(** A run that returned normally, left the cache cleared and asked,
    once, for the entry page. *)
Definition logged_out (r : Run ()) : Prop :=
  result r = inr () ∧
  cleared (store r) ∧
  List.filter is_navigation (log r) = [EvNavigate "index.html"].

(** The local checks of the two forms, as the handlers write them. *)
Definition title_ok (title : jsstring) : bool :=
  negb ((length title <? 5)%nat || (200 <? length title)%nat).

Definition content_ok (content : jsstring) : bool :=
  negb ((length content <? 10)%nat || (5000 <? length content)%nat).

Definition name_ok (name : jsstring) : bool :=
  negb ((length name <? 3)%nat || (100 <? length name)%nat).

Definition email_ok (email : jsstring) : bool :=
  negb (negb (Auth.isValidEmail email) || (100 <? length email)%nat).

Definition password_ok (password : jsstring) : bool :=
  negb (length password <? 6)%nat.

(** ** Sample inputs *)

Definition quote : jsstring := [34%N].

(** [JSON.stringify] on values without numbers and without characters
    that need escaping; enough to run the scripts on the samples. *)
Fixpoint stringify_sample (v : value) : jsstring :=
  match v with
  | VUndefined => js "undefined"
  | VNull | VNum _ => js "null"
  | VBool b => js (if b then "true" else "false")
  | VStr s => (quote ++ s ++ quote)%list
  | VArr items =>
      (js "[" ++
      (fix go (l : list value) : jsstring :=
         match l with
         | [] => []
         | x :: l' =>
             stringify_sample x ++
             match l' with [] => [] | _ => js "," ++ go l' end
         end) items ++
      js "]")%list
  | VObj props =>
      (js "{" ++
      (fix go (l : list (jsstring * value)) : jsstring :=
         match l with
         | [] => []
         | (k, x) :: l' =>
             quote ++ k ++ quote ++ js ":" ++ stringify_sample x ++
             match l' with [] => [] | _ => js "," ++ go l' end
         end) props ++
      js "}")%list
  end.

Definition ann : value :=
  VObj [(js "user_id", VStr (js "7"));
        (js "name", VStr (js "Ann Lee"));
        (js "email", VStr (js "ann@example.org"));
        (js "created_at", VStr (js "2025-01-01 10:00:00"))].

Definition body_ok : value :=
  VObj [(js "success", VBool true);
        (js "message", VStr (js "Done."));
        (js "data", ann)].

Definition body_failed : value :=
  VObj [(js "success", VBool false);
        (js "message", VStr (js "Not authenticated"))].

(** What [JSON.parse] makes of [{"toString": null}]: an object that
    cannot be converted to a string. *)
Definition stubborn : value := VObj [(js "toString", VNull)].

(** Answers reporting success, respectively failure, with such an
    object as their message. *)
Definition body_ok_stubborn : value :=
  VObj [(js "success", VBool true);
        (js "message", stubborn);
        (js "data", ann)].

Definition body_failed_stubborn : value :=
  VObj [(js "success", VBool false); (js "message", stubborn)].


(** A post as the list answer carries it. *)
Definition a_post : value :=
  VObj [(js "post_id", VStr (js "12"));
        (js "title", VStr (js "Exam dates"));
        (js "content", VStr (js "When are the exam dates published?"));
        (js "author_name", VStr (js "Ann Lee"));
        (js "created_at", VStr (js "2025-01-02 09:30:00"))].

(** A successful list answer with the given posts, and a successful
    answer without [data]. *)
Definition body_posts (items : list value) : value :=
  VObj [(js "success", VBool true); (js "data", VArr items)].

Definition body_no_data : value := VObj [(js "success", VBool true)].

Definition answer_with (data : value) : FetchOutcome :=
  Responded (mkResponse 200 (Parsed data)).

Definition answer_ok : FetchOutcome := Responded (mkResponse 200 (Parsed body_ok)).
Definition answer_401 : FetchOutcome := Responded (mkResponse 401 (Parsed body_failed)).
Definition answer_401_ok : FetchOutcome := Responded (mkResponse 401 (Parsed body_ok)).
Definition answer_garbled : FetchOutcome := Responded (mkResponse 502 Unparseable).

(** A cache with the flag set and no user record, and an empty one. *)
Definition cache_flag_only : Storage := {[ "isLoggedIn" := js "true" ]}.
Definition cache_empty : Storage := ∅.

Definition some_title : jsstring := js "Exam dates".
Definition some_content : jsstring := js "When are the exam dates published?".

(** * Properties *)

(** ** The scripts on sample inputs *)

Example trim_strips_both_ends : trim (js "  Hi ") = js "Hi".
Proof. vm_compute. reflexivity. Qed.

Example trim_keeps_inner_blanks : trim (js " Ann Lee ") = js "Ann Lee".
Proof. vm_compute. reflexivity. Qed.

Example emails :
  Auth.isValidEmail (js "ann@example.org") = true ∧
  Auth.isValidEmail (js "ann@example") = false ∧
  Auth.isValidEmail (js "ann lee@example.org") = false ∧
  Auth.isValidEmail (js "ann@@example.org") = false ∧
  Auth.isValidEmail (js "@example.org") = false.
Proof. repeat split; vm_compute; reflexivity. Qed.

(** With no flag in the cache the forum guard sends nothing and
    requests the entry page. *)
Example forum_guard_on_empty_cache :
  Forum.checkAuthentication answer_ok cache_empty =
    mkRun (inr false) cache_empty [EvNavigate "index.html"].
Proof. vm_compute. reflexivity. Qed.

(** A 401 reporting failure at the forum guard: the cache is cleared
    and the entry page requested, once. *)
Example forum_guard_on_401 :
  Forum.checkAuthentication answer_401 cache_flag_only =
    mkRun (inr false) cache_empty
          [EvFetch Forum.profile_request; EvRemoveItem "user";
           EvRemoveItem "isLoggedIn"; EvNavigate "index.html"].
Proof. vm_compute. reflexivity. Qed.

(** An empty list of posts is shown as such. *)
Example no_posts_yet :
  log (Forum.loadPosts
         (Responded (mkResponse 200
            (Parsed (VObj [(js "success", VBool true); (js "data", VArr [])]))))
         cache_flag_only) =
    [EvLoading true; EvFetch Forum.list_request; EvLoading false;
     EvPosts NoPostsYet].
Proof. vm_compute. reflexivity. Qed.

(** ** The matcher is the regular expression *)

Lemma matches_seq_inv r1 r2 w :
  Matches (Seq r1 r2) w →
  ∃ s1 s2, w = (s1 ++ s2)%list ∧ Matches r1 s1 ∧ Matches r2 s2.
Proof. inversion 1; eauto. Qed.

Lemma matches_alt_inv r1 r2 w :
  Matches (Alt r1 r2) w → Matches r1 w ∨ Matches r2 w.
Proof. inversion 1; auto. Qed.

Lemma matches_class_inv p w :
  Matches (Class p) w → ∃ c, w = [c] ∧ p c = true.
Proof. inversion 1; eauto. Qed.

Lemma nullable_spec r : nullable r = true ↔ Matches r [].
Proof.
  induction r as [| |p|r1 IH1 r2 IH2|r1 IH1 r2 IH2|r IH]; cbn.
  - split; [done | inversion 1].
  - split; [constructor | done].
  - split; [done | inversion 1].
  - rewrite andb_true_iff, IH1, IH2. split.
    + intros [H1 H2]. exact (matches_seq _ _ [] [] H1 H2).
    + intros (s1 & s2 & E & H1 & H2)%matches_seq_inv.
      symmetry in E. by apply app_eq_nil in E as [-> ->].
  - rewrite orb_true_iff, IH1, IH2. split.
    + intros [H|H]; [by apply matches_alt_l | by apply matches_alt_r].
    + apply matches_alt_inv.
  - split; [constructor | done].
Qed.

Lemma star_cons_gen r' w :
  Matches r' w →
  ∀ r c s, r' = Star r → w = c :: s →
  ∃ s1 s2, s = (s1 ++ s2)%list ∧ Matches r (c :: s1) ∧ Matches (Star r) s2.
Proof.
  induction 1 as [|p0 c0 Hp|r1 r2 s1 s2 _ _ _ _|r1 r2 s0 _ _|r1 r2 s0 _ _
                 |r0|r0 s1 s2 H1 _ H2 IH2];
    intros r c s Hr Hw; try discriminate.
  injection Hr as ->.
  destruct s1 as [|c' s1]; cbn in Hw.
  - by apply IH2.
  - injection Hw as -> <-. eauto.
Qed.

Lemma star_cons r c s :
  Matches (Star r) (c :: s) →
  ∃ s1 s2, s = (s1 ++ s2)%list ∧ Matches r (c :: s1) ∧ Matches (Star r) s2.
Proof. intros H. by eapply star_cons_gen. Qed.

Lemma after_spec r : ∀ c s, Matches (after c r) s ↔ Matches r (c :: s).
Proof.
  induction r as [| |p|r1 IH1 r2 IH2|r1 IH1 r2 IH2|r IH]; intros c s; cbn.
  - split; inversion 1.
  - split; inversion 1.
  - split.
    + destruct (p c) eqn:Hp; inversion 1. by constructor.
    + intros (c' & [= -> ->] & Hp)%matches_class_inv. rewrite Hp. constructor.
  - split.
    + intros H.
      assert (Matches (Seq (after c r1) r2) s ∨
              nullable r1 = true ∧ Matches (after c r2) s) as [Hl | [Hn Hr]].
      { destruct (nullable r1); [|by left].
        apply matches_alt_inv in H as [H|H]; auto. }
      * apply matches_seq_inv in Hl as (s1 & s2 & -> & Ha & Hb).
        apply IH1 in Ha. exact (matches_seq _ _ (c :: s1) s2 Ha Hb).
      * apply IH2 in Hr. apply nullable_spec in Hn.
        exact (matches_seq _ _ [] (c :: s) Hn Hr).
    + intros (s1 & s2 & E & Ha & Hb)%matches_seq_inv.
      destruct s1 as [|c' s1]; cbn in E.
      * subst s2. apply nullable_spec in Ha as ->.
        apply matches_alt_r. by apply IH2.
      * injection E as <- ->. apply IH1 in Ha.
        destruct (nullable r1); [apply matches_alt_l|]; by constructor.
  - split.
    + intros [H|H]%matches_alt_inv;
        [apply matches_alt_l, IH1 | apply matches_alt_r, IH2]; done.
    + intros [H|H]%matches_alt_inv;
        [apply matches_alt_l, IH1 | apply matches_alt_r, IH2]; done.
  - split.
    + intros (s1 & s2 & -> & Ha & Hb)%matches_seq_inv.
      apply IH in Ha. exact (matches_star_more _ (c :: s1) s2 Ha Hb).
    + intros (s1 & s2 & -> & Ha & Hb)%star_cons.
      constructor; [by apply IH | done].
Qed.

Theorem regex_test_spec r s : regex_test r s = true ↔ Matches r s.
Proof.
  revert r. induction s as [|c s IH]; intros r; cbn.
  - apply nullable_spec.
  - by rewrite IH, after_spec.
Qed.

Lemma matches_star_class p s :
  Matches (Star (Class p)) s ↔ Forall (λ c, p c = true) s.
Proof.
  induction s as [|c s IH].
  - split; constructor.
  - split.
    + intros (s1 & s2 & -> & Hc & Hs)%star_cons.
      apply matches_class_inv in Hc as (c' & [= -> ->] & Hp).
      constructor; [done | by apply IH].
    + intros [Hp Hs]%Forall_cons.
      apply (matches_star_more _ [c] s); [by constructor | by apply IH].
Qed.

Lemma matches_plus_class p s :
  Matches (Plus (Class p)) s ↔ s ≠ [] ∧ Forall (λ c, p c = true) s.
Proof.
  unfold Plus. split.
  - intros (s1 & s2 & -> & (c & -> & Hp)%matches_class_inv
            & Hs%matches_star_class)%matches_seq_inv.
    split; [done | by constructor].
  - intros [Hne Hs]. destruct s as [|c s]; [done|].
    apply Forall_cons in Hs as [Hp Hs].
    apply (matches_seq _ _ [c] s); [by constructor | by apply matches_star_class].
Qed.

(** The strings the pattern of [isValidEmail] matches. *)
Lemma email_pattern_parts email :
  Auth.isValidEmail email = true ↔
  ∃ a b c,
    email = (a ++ [Auth.at_sign] ++ b ++ [Auth.full_stop] ++ c)%list ∧
    a ≠ [] ∧ b ≠ [] ∧ c ≠ [] ∧
    Forall (λ x, Auth.not_space_at x = true) (a ++ b ++ c)%list.
Proof.
  unfold Auth.isValidEmail, Auth.emailRegex. rewrite regex_test_spec. split.
  - intros (a & w1 & -> & [Ha Fa]%matches_plus_class & H1)%matches_seq_inv.
    apply matches_seq_inv in H1
      as (x & w2 & -> & (c1 & -> & ->%N.eqb_eq)%matches_class_inv & H2).
    apply matches_seq_inv in H2
      as (b & w3 & -> & [Hb Fb]%matches_plus_class & H3).
    apply matches_seq_inv in H3
      as (y & c & -> & (c2 & -> & ->%N.eqb_eq)%matches_class_inv
          & [Hc Fc]%matches_plus_class).
    exists a, b, c. rewrite !Forall_app. done.
  - intros (a & b & c & -> & Ha & Hb & Hc & F).
    rewrite !Forall_app in F. destruct F as (Fa & Fb & Fc).
    apply matches_seq; [by apply matches_plus_class|].
    apply matches_seq; [constructor; apply N.eqb_refl|].
    apply matches_seq; [by apply matches_plus_class|].
    apply matches_seq; [constructor; apply N.eqb_refl|].
    by apply matches_plus_class.
Qed.

(** X1.  What [isValidEmail] accepts: a non-empty local part, an at sign, and
    a rest that holds a full stop with something before and after it,
    none of the three parts holding a blank or another at sign. *)
Theorem isValidEmail_shape email :
  Auth.isValidEmail email = true ↔
  ∃ a b c,
    email = (a ++ [Auth.at_sign] ++ b ++ [Auth.full_stop] ++ c)%list ∧
    a ≠ [] ∧ b ≠ [] ∧ c ≠ [] ∧
    Forall (λ x, Auth.not_space_at x = true) (a ++ b ++ c)%list.
Proof. apply email_pattern_parts. Qed.

Lemma isValidEmail_shape_witness :
  ∃ a b c,
    js "ann@example.org" =
      (a ++ [Auth.at_sign] ++ b ++ [Auth.full_stop] ++ c)%list ∧
    a ≠ [] ∧ b ≠ [] ∧ c ≠ [] ∧
    Forall (λ x, Auth.not_space_at x = true) (a ++ b ++ c)%list.
Proof.
  exact (proj1 (isValidEmail_shape (js "ann@example.org")) eq_refl).
Defined.

(** ** Running a script by hand *)

Ltac unfold_script :=
  cbv beta iota zeta delta
    [Forum.checkAuthentication Forum.handleLogout Forum.loadPosts
     Forum.loadPosts_issue Forum.loadPosts_resume Forum.handleCreatePost
     Forum.onLoad
     Profile.checkAuthentication Profile.handleLogout Profile.loadProfile
     Profile.loadProfile_issue Profile.loadProfile_resume Profile.onLoad
     Auth.handleRegister Auth.handleLogin Auth.verifySession
     Auth.verifySession_issue Auth.verifySession_resume
     Auth.checkLoginStatus Auth.onLoad
     bind ret throw try_catch emit getItem setItem removeItem
     send settle fetch json get navigate setTimeout showMessage
     text_ok setText string_concat Profile.formatDate
     toggleLoading fire setItem_json
     Forum.length_is_zero Forum.map_createPostHTML
     result store log status body app].

Ltac unfold_monad :=
  cbv beta iota zeta delta
    [bind ret throw try_catch emit getItem setItem removeItem
     send settle fetch json get navigate setTimeout showMessage
     text_ok setText string_concat
     toggleLoading result store log status body app negb].

Ltac use_facts :=
  repeat match goal with
    | H : nullish ?d = _ |- context [nullish ?d] => rewrite H
    | H : truthy ?v = _ |- context [truthy ?v] => rewrite H
    | H : convertible ?v = _ |- context [convertible ?v] => rewrite H
    | H : (?a =? ?b)%N = _ |- context [(?a =? ?b)%N] => rewrite H
    | H : (?a || ?b) = _ |- context [?a || ?b] => rewrite H
    | H : (?a <? ?b)%nat = _ |- context [(?a <? ?b)%nat] => rewrite H
    | H : Auth.isValidEmail ?e = _ |- context [Auth.isValidEmail ?e] => rewrite H
    | H : ?s !! ?k = _ |- context [?s !! ?k] => rewrite H
    | |- context [bool_decide ?P] =>
        first [ rewrite (bool_decide_true P) by done
              | rewrite (bool_decide_false P) by done ]
    end.

Ltac script := repeat (progress (unfold_script; use_facts)).

(** ** The cases of [classify] *)

Lemma classify_Ok o data :
  classify o = Ok data →
  ∃ st, o = Responded (mkResponse st (Parsed data)) ∧
        nullish data = false ∧ truthy (prop data "success") = true.
Proof.
  destruct o as [|[st [|d]]]; cbn; try discriminate.
  destruct (nullish d) eqn:Hn; try discriminate.
  destruct (truthy (prop d "success")) eqn:Ht.
  - intros [= <-]. eauto.
  - destruct (st =? 401)%N; discriminate.
Qed.

Lemma classify_failure o :
  reported_failure o = true →
  ∃ st d, o = Responded (mkResponse st (Parsed d)) ∧
          nullish d = false ∧ truthy (prop d "success") = false.
Proof.
  unfold reported_failure.
  destruct o as [|[st [|d]]]; cbn; try discriminate.
  destruct (nullish d) eqn:Hn; try discriminate.
  destruct (truthy (prop d "success")) eqn:Ht; try discriminate.
  eauto 6.
Qed.

Lemma classify_SessionInvalid o :
  classify o = SessionInvalid ↔
  ∃ d, o = Responded (mkResponse 401 (Parsed d)) ∧
       nullish d = false ∧ truthy (prop d "success") = false.
Proof.
  split.
  - destruct o as [|[st [|d]]]; cbn; try discriminate.
    destruct (nullish d) eqn:Hn; try discriminate.
    destruct (truthy (prop d "success")) eqn:Ht; try discriminate.
    destruct (N.eqb_spec st 401) as [->|]; try discriminate. eauto.
  - intros (d & -> & Hn & Ht). cbn. by rewrite Hn, Ht.
Qed.

Lemma classify_DomainError o message :
  classify o = DomainError message →
  ∃ st d, o = Responded (mkResponse st (Parsed d)) ∧ st ≠ 401%N ∧
          nullish d = false ∧ truthy (prop d "success") = false ∧
          message = prop d "message".
Proof.
  destruct o as [|[st [|d]]]; cbn; try discriminate.
  destruct (nullish d) eqn:Hn; try discriminate.
  destruct (truthy (prop d "success")) eqn:Ht; try discriminate.
  destruct (N.eqb_spec st 401) as [->|]; try discriminate.
  intros [= <-]. eauto 8.
Qed.

Lemma classify_TransportFailure o :
  classify o = TransportFailure → ∃ e, Thrown o e.
Proof.
  destruct o as [|[st [|d]]]; cbn; eauto using Thrown.
  destruct (nullish d) eqn:Hn; eauto using Thrown.
  destruct (truthy (prop d "success")); try discriminate.
  destruct (st =? 401)%N; discriminate.
Qed.

(** ** The forum guard *)

Section ForumGuard.

Variables (o : FetchOutcome) (s : Storage).

Lemma forum_guard_logged_out :
  s !! "isLoggedIn" ≠ Some (js "true") →
  Forum.checkAuthentication o s = mkRun (inr false) s [EvNavigate "index.html"].
Proof. intros Hflag. by script. Qed.

Hypothesis flag : s !! "isLoggedIn" = Some (js "true").

Lemma forum_guard_ok data :
  classify o = Ok data →
  Forum.checkAuthentication o s = mkRun (inr true) s [EvFetch Forum.profile_request].
Proof. intros (st & -> & Hn & Ht)%classify_Ok. by script. Qed.

Lemma forum_guard_failure :
  reported_failure o = true →
  Forum.checkAuthentication o s =
    mkRun (inr false) (delete "isLoggedIn" (delete "user" s))
          [EvFetch Forum.profile_request; EvRemoveItem "user";
           EvRemoveItem "isLoggedIn"; EvNavigate "index.html"].
Proof. intros (st & d & -> & Hn & Ht)%classify_failure. by script. Qed.

Lemma forum_guard_transport :
  classify o = TransportFailure →
  ∃ e, Forum.checkAuthentication o s =
         mkRun (inr false) s
               [EvFetch Forum.profile_request;
                EvConsoleError "Authentication check error:" e;
                EvMessage (Lit "Failed to verify authentication") "error";
                EvTimeout HideMessage 5000].
Proof.
  intros [e He]%classify_TransportFailure. exists e.
  destruct He; by script.
Qed.

End ForumGuard.

Lemma classify_cases o :
  (∃ data, classify o = Ok data) ∨
  reported_failure o = true ∨
  classify o = TransportFailure.
Proof.
  unfold reported_failure. destruct (classify o); eauto.
Qed.

Lemma stringified_defined J v : nullish v = false → stringified J v = J v.
Proof. by destruct v. Qed.

Lemma cleared_delete (s : Storage) : cleared (delete "isLoggedIn" (delete "user" s)).
Proof.
  split.
  - rewrite lookup_delete_ne by done. apply lookup_delete_eq.
  - apply lookup_delete_eq.
Qed.

(** ** Logout *)

Lemma forum_logout o s : logged_out (Forum.handleLogout o s).
Proof.
  destruct o as [|[st [|d]]]; (split; [reflexivity|]);
    (split; [apply cleared_delete | reflexivity]).
Qed.

Lemma profile_logout o s : logged_out (Profile.handleLogout o s).
Proof.
  destruct o as [|r]; (split; [reflexivity|]);
    (split; [apply cleared_delete | reflexivity]).
Qed.

(** ** The profile page *)

Section ProfilePage.

Variable JSON_stringify : value → jsstring.
Variables (o : FetchOutcome) (s : Storage).

Lemma profile_guard_true :
  s !! "isLoggedIn" = Some (js "true") →
  Profile.checkAuthentication s = mkRun (inr true) s [].
Proof. intros Hflag. by script. Qed.

Lemma profile_guard_false :
  s !! "isLoggedIn" ≠ Some (js "true") →
  Profile.checkAuthentication s = mkRun (inr false) s [EvNavigate "index.html"].
Proof. intros Hflag. by script. Qed.

Lemma showable_parts user :
  showable user = true ↔
  nullish user = false ∧
  convertible (prop user "name") = true ∧
  convertible (prop user "email") = true ∧
  convertible (prop user "user_id") = true ∧
  convertible (prop user "created_at") = true.
Proof.
  unfold showable. rewrite !andb_true_iff, negb_true_iff. tauto.
Qed.

Lemma loadProfile_resume_ok data :
  classify o = Ok data →
  showable (prop data "data") = true →
  let user := prop data "data" in
  Profile.loadProfile_resume JSON_stringify o s =
    mkRun (inr ()) (<["user" := JSON_stringify user]> s)
          [EvLoading false;
           EvSetText "profileName" (Val (prop user "name"));
           EvSetText "profileEmail" (Val (prop user "email"));
           EvSetText "profileUserId" (Val (prop user "user_id"));
           EvSetText "profileCreatedAt" (DateOf (prop user "created_at"));
           EvDisplay "profileCard" "block";
           EvSetItem "user" (JSON_stringify user)].
Proof.
  intros (st & -> & Hn & Ht)%classify_Ok (Hu & H1 & H2 & H3 & H4)%showable_parts.
  script. by rewrite stringified_defined.
Qed.

(** A record with a field that cannot be converted: the fields before
    it are written, then the [catch] block runs; the card stays hidden
    and the cache as it was. *)
Lemma loadProfile_resume_unshowable data :
  classify o = Ok data →
  nullish (prop data "data") = false →
  showable (prop data "data") = false →
  let user := prop data "data" in
  ∃ n,
    Profile.loadProfile_resume JSON_stringify o s =
      mkRun (inr ()) s
            (EvLoading false ::
             take n [EvSetText "profileName" (Val (prop user "name"));
                     EvSetText "profileEmail" (Val (prop user "email"));
                     EvSetText "profileUserId" (Val (prop user "user_id"))] ++
             [EvLoading false;
              EvConsoleError "Load profile error:" TypeError;
              EvMessage (Lit "Failed to load profile information") "error";
              EvTimeout HideMessage 5000]).
Proof.
  intros (st & -> & Hn & Ht)%classify_Ok Hu Hbad.
  unfold showable in Hbad. rewrite Hu in Hbad. cbn [negb andb] in Hbad.
  destruct (convertible (prop (prop data "data") "name")) eqn:H1;
    [|exists 0%nat; by script].
  destruct (convertible (prop (prop data "data") "email")) eqn:H2;
    [|exists 1%nat; by script].
  destruct (convertible (prop (prop data "data") "user_id")) eqn:H3;
    [|exists 2%nat; by script].
  cbn [andb] in Hbad. exists 3%nat. by script.
Qed.

Lemma loadProfile_resume_no_record data :
  classify o = Ok data →
  nullish (prop data "data") = true →
  Profile.loadProfile_resume JSON_stringify o s =
    mkRun (inr ()) s
          [EvLoading false; EvLoading false;
           EvConsoleError "Load profile error:" TypeError;
           EvMessage (Lit "Failed to load profile information") "error";
           EvTimeout HideMessage 5000].
Proof. intros (st & -> & Hn & Ht)%classify_Ok Hu. by script. Qed.

Lemma loadProfile_resume_expired :
  classify o = SessionInvalid →
  Profile.loadProfile_resume JSON_stringify o s =
    mkRun (inr ()) s
          [EvLoading false;
           EvMessage (Lit "Session expired. Please login again.") "error";
           EvTimeout HideMessage 5000;
           EvTimeout ExpireSession 2000].
Proof. intros (d & -> & Hn & Ht)%classify_SessionInvalid. by script. Qed.

Lemma loadProfile_resume_error message :
  classify o = DomainError message →
  convertible message = true →
  Profile.loadProfile_resume JSON_stringify o s =
    mkRun (inr ()) s
          [EvLoading false; EvMessage (Val message) "error";
           EvTimeout HideMessage 5000].
Proof.
  intros (st & d & -> & Hst%N.eqb_neq & Hn & Ht & ->)%classify_DomainError Hm.
  by script.
Qed.

Lemma loadProfile_resume_error_unshown message :
  classify o = DomainError message →
  convertible message = false →
  Profile.loadProfile_resume JSON_stringify o s =
    mkRun (inr ()) s
          [EvLoading false; EvLoading false;
           EvConsoleError "Load profile error:" TypeError;
           EvMessage (Lit "Failed to load profile information") "error";
           EvTimeout HideMessage 5000].
Proof.
  intros (st & d & -> & Hst%N.eqb_neq & Hn & Ht & ->)%classify_DomainError Hm.
  by script.
Qed.

Lemma loadProfile_resume_transport :
  classify o = TransportFailure →
  ∃ e before,
    Profile.loadProfile_resume JSON_stringify o s =
      mkRun (inr ()) s
            (before ++
             [EvLoading false;
              EvConsoleError "Load profile error:" e;
              EvMessage (Lit "Failed to load profile information") "error";
              EvTimeout HideMessage 5000]) ∧
    (before = [] ∨ before = [EvLoading false]).
Proof.
  intros [e He]%classify_TransportFailure. exists e.
  destruct He.
  - exists []. split; [by script | by left].
  - exists []. split; [by script | by left].
  - exists [EvLoading false]. split; [by script | by right].
Qed.

(** The profile card is shown by a successful answer only. *)
Lemma loadProfile_resume_shows :
  existsb shows_profile (log (Profile.loadProfile_resume JSON_stringify o s)) = true →
  ∃ data, classify o = Ok data.
Proof.
  destruct (classify o) as [data|message| |] eqn:Hc; eauto.
  - destruct (convertible message) eqn:Hm.
    + by rewrite (loadProfile_resume_error _ Hc Hm).
    + by rewrite (loadProfile_resume_error_unshown _ Hc Hm).
  - by rewrite (loadProfile_resume_expired Hc).
  - destruct (loadProfile_resume_transport Hc) as (e & before & -> & [-> | ->]);
      discriminate.
Qed.

End ProfilePage.

Lemma loadProfile_runs J o s :
  Profile.loadProfile J o s =
    let r := Profile.loadProfile_resume J o s in
    mkRun (result r) (store r)
          (EvLoading true :: EvFetch Profile.profile_request :: log r).
Proof.
  unfold Profile.loadProfile, Profile.loadProfile_issue. unfold_monad.
  by destruct (Profile.loadProfile_resume J o s).
Qed.

Lemma profile_onLoad_runs J o s :
  s !! "isLoggedIn" = Some (js "true") →
  Profile.onLoad J o s =
    let r := Profile.loadProfile_resume J o s in
    mkRun (result r) (store r)
          (EvLoading true :: EvFetch Profile.profile_request ::
           EvListen "logoutBtn" "click" :: log r).
Proof.
  intros Hflag. unfold Profile.onLoad. unfold bind at 1.
  rewrite (profile_guard_true _ Hflag).
  unfold Profile.loadProfile_issue. unfold_monad.
  by destruct (Profile.loadProfile_resume J o s).
Qed.

(** [createPostHTML] has no effect of its own: it returns for a
    renderable post and throws for any other; so does the [map] over
    the posts. *)
Lemma createPostHTML_run post s :
  Forum.createPostHTML post s =
    if renderable post then mkRun (inr post) s [] else mkRun (inl TypeError) s [].
Proof.
  unfold Forum.createPostHTML, Forum.escaped, Forum.dated, renderable.
  destruct (nullish post) eqn:Hn; [by script|].
  destruct (convertible (prop post "title")) eqn:H1; [|by script].
  destruct (convertible (prop post "author_name")) eqn:H2; [|by script].
  destruct (convertible (prop post "created_at")) eqn:H3; [|by script].
  destruct (convertible (prop post "content")) eqn:H4; by script.
Qed.

Lemma mapM_createPostHTML items s :
  Forum.mapM Forum.createPostHTML items s =
    if forallb renderable items then mkRun (inr items) s []
    else mkRun (inl TypeError) s [].
Proof.
  induction items as [|post items IH]; [done|].
  cbn [Forum.mapM forallb]. unfold bind at 1. rewrite createPostHTML_run.
  destruct (renderable post); [|done].
  cbn [andb]. unfold bind. rewrite IH.
  by destruct (forallb renderable items).
Qed.

(** Whatever the answer, [loadPosts] returns normally, leaves the cache
    alone, requests no navigation and arms no expiry. *)
Lemma loadPosts_resume_safe o s :
  let r := Forum.loadPosts_resume o s in
  result r = inr () ∧ store r = s ∧
  List.filter is_cache_write (log r) = [] ∧
  List.filter is_navigation (log r) = [] ∧
  existsb is_expiry_timer (log r) = false ∧
  existsb is_fetch (log r) = false.
Proof.
  destruct o as [|[st [|d]]]; try by script.
  destruct (nullish d) eqn:Hn; [by script|].
  destruct (truthy (prop d "success")) eqn:Ht;
    [|destruct (convertible (prop d "message")) eqn:Hm; by script].
  script.
  destruct (prop d "data") as [| |b|f|str|items|props]; try by script.
  - destruct str; by script.
  - destruct items as [|post items]; [by script|]. script.
    rewrite mapM_createPostHTML.
    destruct (forallb _ _); by script.
  - script. destruct (own_prop props (js "length")) as [| | |[]| | |]; by script.
Qed.

Lemma loadPosts_runs o s :
  Forum.loadPosts o s =
    let r := Forum.loadPosts_resume o s in
    mkRun (result r) (store r)
          (EvLoading true :: EvFetch Forum.list_request :: log r).
Proof.
  unfold Forum.loadPosts, Forum.loadPosts_issue. unfold_monad.
  by destruct (Forum.loadPosts_resume o s).
Qed.

(** The forum page load: when the guard says no, nothing else runs;
    when it says yes, the list request leaves, the four listeners are
    attached, and [loadPosts] resumes with its answer. *)
Lemma forum_onLoad_blocked o o_list s :
  result (Forum.checkAuthentication o s) = inr false →
  Forum.onLoad o o_list s =
    mkRun (inr ()) (store (Forum.checkAuthentication o s))
          (log (Forum.checkAuthentication o s)).
Proof.
  intros Hno. unfold Forum.onLoad. unfold bind at 1.
  destruct (Forum.checkAuthentication o s) as [res st l].
  cbn [result store log] in *. subst res. cbn [negb ret].
  by rewrite app_nil_r.
Qed.

Lemma forum_onLoad_authorized o o_list s data :
  s !! "isLoggedIn" = Some (js "true") →
  classify o = Ok data →
  Forum.onLoad o o_list s =
    mkRun (inr ()) s
          ([EvFetch Forum.profile_request;
            EvLoading true;
            EvFetch Forum.list_request;
            EvListen "createPostForm" "submit";
            EvListen "logoutBtn" "click";
            EvListen "postTitle" "input";
            EvListen "postContent" "input"] ++
           log (Forum.loadPosts_resume o_list s)).
Proof.
  intros Hflag Hok. unfold Forum.onLoad. unfold bind at 1.
  rewrite (forum_guard_ok _ _ Hflag _ Hok).
  destruct (loadPosts_resume_safe o_list s) as (Hres & Hst & _).
  revert Hres Hst. unfold Forum.loadPosts_issue. unfold_monad.
  destruct (Forum.loadPosts_resume o_list s) as [res st l].
  cbv beta iota. by intros -> ->.
Qed.

(** ** Session guard: the claims *)

(** The profile page load under a successful answer: the record is
    stored, once, exactly when it can be shown. *)
Lemma profile_onLoad_refresh J o s data :
  s !! "isLoggedIn" = Some (js "true") →
  classify o = Ok data →
  let user := prop data "data" in
  let p := Profile.onLoad J o s in
  store p = (if showable user then <["user" := J user]> s else s) ∧
  List.filter is_cache_write (log p) =
    (if showable user then [EvSetItem "user" (J user)] else []).
Proof.
  intros Hflag Hok user p. subst user p.
  rewrite (profile_onLoad_runs _ _ _ Hflag). cbn [store log].
  destruct (showable (prop data "data")) eqn:Hshow.
  - by rewrite (loadProfile_resume_ok _ _ _ _ Hok Hshow).
  - destruct (nullish (prop data "data")) eqn:Hrecord.
    + by rewrite (loadProfile_resume_no_record _ _ _ _ Hok Hrecord).
    + destruct (loadProfile_resume_unshowable J _ s _ Hok Hrecord Hshow)
        as [n ->].
      by destruct n as [|[|[|[|n]]]].
Qed.

(** C1, amended.  On a forum page load with the cached flag set and a
    profile confirmation that reports success, the guard returns [true]
    after one profile request and leaves the cache as it was: neither
    the guard nor the rest of the page load writes an entry.  Under the
    same two conditions the guard of the profile page returns [true]
    without writing either, and the profile page load then refreshes
    the cached user record, by the one [setItem] of [loadProfile],
    exactly when the answer carries a record whose four displayed
    fields can be converted to strings; otherwise that page load leaves
    the cache as it was, too. *)
Theorem forum_guard_authorizes_without_refresh
    (JSON_stringify : value → jsstring) o o_list s data :
  s !! "isLoggedIn" = Some (js "true") →
  classify o = Ok data →
  Forum.checkAuthentication o s =
    mkRun (inr true) s [EvFetch Forum.profile_request] ∧
  (store (Forum.onLoad o o_list s) = s ∧
   List.filter is_cache_write (log (Forum.onLoad o o_list s)) = []) ∧
  Profile.checkAuthentication s = mkRun (inr true) s [] ∧
  (let user := prop data "data" in
   let p := Profile.onLoad JSON_stringify o s in
   store p = (if showable user then <["user" := JSON_stringify user]> s else s) ∧
   List.filter is_cache_write (log p) =
     (if showable user then [EvSetItem "user" (JSON_stringify user)] else [])).
Proof.
  intros Hflag Hok. split; [|split; [|split]].
  - by apply forum_guard_ok with data.
  - rewrite (forum_onLoad_authorized _ o_list _ _ Hflag Hok).
    cbn [store log]. split; [done|].
    rewrite List.filter_app.
    by destruct (loadPosts_resume_safe o_list s) as (_ & _ & -> & _).
  - by apply profile_guard_true.
  - by apply profile_onLoad_refresh.
Qed.

Lemma forum_guard_authorizes_without_refresh_witness :
  Forum.checkAuthentication answer_ok cache_flag_only =
    mkRun (inr true) cache_flag_only [EvFetch Forum.profile_request] ∧
  (store (Forum.onLoad answer_ok answer_ok cache_flag_only) = cache_flag_only ∧
   List.filter is_cache_write
     (log (Forum.onLoad answer_ok answer_ok cache_flag_only)) = []) ∧
  Profile.checkAuthentication cache_flag_only = mkRun (inr true) cache_flag_only [] ∧
  store (Profile.onLoad stringify_sample answer_ok cache_flag_only) =
    <["user" := stringify_sample ann]> cache_flag_only ∧
  List.filter is_cache_write
    (log (Profile.onLoad stringify_sample answer_ok cache_flag_only)) =
    [EvSetItem "user" (stringify_sample ann)].
Proof.
  exact (forum_guard_authorizes_without_refresh
           stringify_sample answer_ok answer_ok cache_flag_only body_ok
           eq_refl eq_refl).
Defined.

(** C1 as stated fails: with the flag set and a successful confirmation
    carrying Ann's record, the forum guard returns [true] and the cache
    still holds no user record. *)
Lemma forum_guard_refresh_counterexample :
  cache_flag_only !! "isLoggedIn" = Some (js "true") ∧
  classify answer_ok = Ok body_ok ∧
  prop body_ok "data" = ann ∧
  result (Forum.checkAuthentication answer_ok cache_flag_only) = inr true ∧
  store (Forum.checkAuthentication answer_ok cache_flag_only) !! "user" = None ∧
  store (Forum.checkAuthentication answer_ok cache_flag_only) !! "user"
    ≠ Some (stringified stringify_sample ann).
Proof. by repeat split. Qed.

(** C2, amended.  On the forum page the guard returns [true] only when
    the flag is set, a profile request has been sent and its answer
    reported success.  On the profile page the guard is synchronous: it
    returns [true] exactly when the flag is set and sends nothing; the
    page then sends the profile request at once, through [loadProfile],
    and shows the profile only if the answer reports success. *)
Theorem guard_confirmation (JSON_stringify : value → jsstring) o s :
  (result (Forum.checkAuthentication o s) = inr true →
   s !! "isLoggedIn" = Some (js "true") ∧
   log (Forum.checkAuthentication o s) = [EvFetch Forum.profile_request] ∧
   ∃ data, classify o = Ok data) ∧
  (result (Profile.checkAuthentication s) = inr true ↔
   s !! "isLoggedIn" = Some (js "true")) ∧
  existsb is_fetch (log (Profile.checkAuthentication s)) = false ∧
  (s !! "isLoggedIn" = Some (js "true") →
   (∃ rest, log (Profile.onLoad JSON_stringify o s) =
              EvLoading true :: EvFetch Profile.profile_request :: rest) ∧
   (existsb shows_profile (log (Profile.onLoad JSON_stringify o s)) = true →
    ∃ data, classify o = Ok data)).
Proof.
  destruct (decide (s !! "isLoggedIn" = Some (js "true"))) as [Hflag|Hflag].
  - split; [|split; [|split]].
    + destruct (classify_cases o) as [[data Hok] | [Hfail | Htr]].
      * rewrite (forum_guard_ok _ _ Hflag _ Hok). eauto.
      * by rewrite (forum_guard_failure _ _ Hflag Hfail).
      * by destruct (forum_guard_transport _ _ Hflag Htr) as [e ->].
    + by rewrite profile_guard_true.
    + by rewrite profile_guard_true.
    + intros _. rewrite (profile_onLoad_runs _ _ _ Hflag). cbn. split.
      * eauto.
      * apply loadProfile_resume_shows.
  - split; [|split; [|split]]; try done.
    + by rewrite (forum_guard_logged_out _ _ Hflag).
    + by rewrite profile_guard_false.
    + by rewrite profile_guard_false.
Qed.

Lemma guard_confirmation_witness :
  (cache_flag_only !! "isLoggedIn" = Some (js "true") ∧
   log (Forum.checkAuthentication answer_ok cache_flag_only) =
     [EvFetch Forum.profile_request] ∧
   ∃ data, classify answer_ok = Ok data) ∧
  result (Profile.checkAuthentication cache_flag_only) = inr true ∧
  (∃ rest, log (Profile.onLoad stringify_sample answer_ok cache_flag_only) =
             EvLoading true :: EvFetch Profile.profile_request :: rest) ∧
  ∃ data, classify answer_ok = Ok data.
Proof.
  destruct (guard_confirmation stringify_sample answer_ok cache_flag_only)
    as (Hforum & Hprofile & _ & Hpage).
  destruct (Hpage eq_refl) as [Hsent Hshown].
  exact (conj (Hforum eq_refl)
           (conj (proj2 Hprofile eq_refl) (conj Hsent (Hshown eq_refl)))).
Defined.

(** C2 as stated fails on the profile page: with nothing but the flag in
    the cache, its guard returns [true] and no request has been sent. *)
Lemma profile_guard_counterexample :
  cache_flag_only !! "isLoggedIn" = Some (js "true") ∧
  result (Profile.checkAuthentication cache_flag_only) = inr true ∧
  log (Profile.checkAuthentication cache_flag_only) = [] ∧
  existsb is_fetch (log (Profile.checkAuthentication cache_flag_only)) = false.
Proof. by repeat split. Qed.

(** C7.  On a forum page load whose confirmation ends in a transport
    failure (the request is rejected, the body cannot be parsed, or it
    parses to [null]), the guard shows one error message, leaves the
    cache as it was, writes nothing to it and requests no navigation;
    the page load stops there.  The profile page, whose confirmation is
    the profile request of [loadProfile], does the same with its own
    message. *)
Theorem transport_failure_keeps_session
    (JSON_stringify : value → jsstring) o o_list s :
  s !! "isLoggedIn" = Some (js "true") →
  classify o = TransportFailure →
  let r := Forum.checkAuthentication o s in
  let p := Profile.onLoad JSON_stringify o s in
  (result r = inr false ∧
   store r = s ∧
   List.filter is_message (log r) =
     [EvMessage (Lit "Failed to verify authentication") "error"] ∧
   List.filter is_cache_write (log r) = [] ∧
   List.filter is_navigation (log r) = [] ∧
   Forum.onLoad o o_list s = mkRun (inr ()) s (log r)) ∧
  (result p = inr () ∧
   store p = s ∧
   List.filter is_message (log p) =
     [EvMessage (Lit "Failed to load profile information") "error"] ∧
   List.filter is_cache_write (log p) = [] ∧
   List.filter is_navigation (log p) = []).
Proof.
  intros Hflag Htr r p. subst r p. split.
  - destruct (forum_guard_transport _ _ Hflag Htr) as [e Hrun].
    rewrite forum_onLoad_blocked; by rewrite Hrun.
  - rewrite (profile_onLoad_runs _ _ _ Hflag).
    by destruct (loadProfile_resume_transport JSON_stringify _ s Htr)
      as (e & before & -> & [-> | ->]).
Qed.

Lemma transport_failure_keeps_session_witness :
  let r := Forum.checkAuthentication answer_garbled cache_flag_only in
  let p := Profile.onLoad stringify_sample answer_garbled cache_flag_only in
  (result r = inr false ∧
   store r = cache_flag_only ∧
   List.filter is_message (log r) =
     [EvMessage (Lit "Failed to verify authentication") "error"] ∧
   List.filter is_cache_write (log r) = [] ∧
   List.filter is_navigation (log r) = [] ∧
   Forum.onLoad answer_garbled answer_ok cache_flag_only =
     mkRun (inr ()) cache_flag_only (log r)) ∧
  (result p = inr () ∧
   store p = cache_flag_only ∧
   List.filter is_message (log p) =
     [EvMessage (Lit "Failed to load profile information") "error"] ∧
   List.filter is_cache_write (log p) = [] ∧
   List.filter is_navigation (log p) = []).
Proof.
  exact (transport_failure_keeps_session stringify_sample answer_garbled
           answer_ok cache_flag_only eq_refl eq_refl).
Defined.

(** ** Logout: the claim *)

(** C3.  However the logout request settles, [handleLogout] (forum page
    and profile page alike) returns normally, leaves the cache without
    either entry and requests the entry page once; run a second time on
    the cache the first run left, it does the same. *)
Theorem logout_unconditional (o1 o2 : FetchOutcome) (s : Storage) :
  (let first := Forum.handleLogout o1 s in
   let second := Forum.handleLogout o2 (store first) in
   logged_out first ∧ logged_out second) ∧
  (let first := Profile.handleLogout o1 s in
   let second := Profile.handleLogout o2 (store first) in
   logged_out first ∧ logged_out second).
Proof.
  repeat split; first [apply forum_logout | apply profile_logout].
Qed.

(** ** Posts *)

(** The local checks, as bounds on lengths. *)
Lemma title_ok_bounds t : title_ok t = true ↔ (5 ≤ length t ≤ 200)%nat.
Proof.
  unfold title_ok. rewrite negb_true_iff, orb_false_iff, !Nat.ltb_ge. lia.
Qed.

Lemma content_ok_bounds c : content_ok c = true ↔ (10 ≤ length c ≤ 5000)%nat.
Proof.
  unfold content_ok. rewrite negb_true_iff, orb_false_iff, !Nat.ltb_ge. lia.
Qed.

Lemma name_ok_bounds n : name_ok n = true ↔ (3 ≤ length n ≤ 100)%nat.
Proof.
  unfold name_ok. rewrite negb_true_iff, orb_false_iff, !Nat.ltb_ge. lia.
Qed.

Lemma email_ok_bounds e :
  email_ok e = true ↔ Auth.isValidEmail e = true ∧ (length e ≤ 100)%nat.
Proof.
  unfold email_ok.
  rewrite negb_true_iff, orb_false_iff, negb_false_iff, Nat.ltb_ge. tauto.
Qed.

Lemma password_ok_bounds p : password_ok p = true ↔ (6 ≤ length p)%nat.
Proof. unfold password_ok. by rewrite negb_true_iff, Nat.ltb_ge. Qed.

Lemma fire_ExpireSession s :
  fire ExpireSession s =
    mkRun (inr ()) (delete "isLoggedIn" (delete "user" s))
          [EvRemoveItem "user"; EvRemoveItem "isLoggedIn";
           EvNavigate "index.html"].
Proof. reflexivity. Qed.

Section CreatePost.

Variables (titleValue contentValue : jsstring).
Variables (o o_list : FetchOutcome) (s : Storage).

Let title := trim titleValue.
Let content := trim contentValue.

Lemma createPost_bad_title :
  title_ok title = false →
  Forum.handleCreatePost titleValue contentValue o o_list s =
    mkRun (inr ()) s
          [EvPreventDefault;
           EvMessage (Lit "Title must be between 5 and 200 characters") "error";
           EvTimeout HideMessage 5000].
Proof.
  unfold title_ok, title. intros Ht%negb_false_iff. by script.
Qed.

Lemma createPost_bad_content :
  title_ok title = true →
  content_ok content = false →
  Forum.handleCreatePost titleValue contentValue o o_list s =
    mkRun (inr ()) s
          [EvPreventDefault;
           EvMessage (Lit "Content must be between 10 and 5000 characters") "error";
           EvTimeout HideMessage 5000].
Proof.
  unfold title_ok, content_ok, title, content.
  intros Ht%negb_true_iff Hc%negb_false_iff. by script.
Qed.

Hypothesis title_valid : title_ok title = true.
Hypothesis content_valid : content_ok content = true.

Lemma createPost_ok data :
  classify o = Ok data →
  convertible (prop data "message") = true →
  Forum.handleCreatePost titleValue contentValue o o_list s =
    let r := Forum.loadPosts o_list s in
    mkRun (result r) (store r)
          ([EvPreventDefault;
            EvFetch (Forum.create_request title content);
            EvMessage (Val (prop data "message")) "success";
            EvTimeout HideMessage 5000;
            EvFormReset "createPostForm";
            EvSetText "titleCount" (Lit "0");
            EvSetText "contentCount" (Lit "0")] ++ log r).
Proof.
  revert title_valid content_valid.
  unfold title_ok, content_ok, title, content.
  intros Ht%negb_true_iff Hc%negb_true_iff (st & -> & Hn & Hs)%classify_Ok Hm.
  generalize (loadPosts_resume_safe o_list s).
  unfold Forum.handleCreatePost, Forum.loadPosts, Forum.loadPosts_issue.
  repeat (progress (unfold_monad; use_facts)).
  destruct (Forum.loadPosts_resume o_list s) as [[e|[]] st' l]; cbv beta iota.
  - by intros [? _].
  - done.
Qed.

(** A success whose message cannot be converted: [showMessage] throws
    at its first statement and the [catch] block takes over. *)
Lemma createPost_unannounced data :
  classify o = Ok data →
  convertible (prop data "message") = false →
  Forum.handleCreatePost titleValue contentValue o o_list s =
    mkRun (inr ()) s
          [EvPreventDefault;
           EvFetch (Forum.create_request title content);
           EvConsoleError "Create post error:" TypeError;
           EvMessage (Lit "Failed to create post. Please try again.") "error";
           EvTimeout HideMessage 5000].
Proof.
  revert title_valid content_valid.
  unfold title_ok, content_ok, title, content.
  intros Ht%negb_true_iff Hc%negb_true_iff (st & -> & Hn & Hs)%classify_Ok Hm.
  by script.
Qed.

Lemma createPost_expired :
  classify o = SessionInvalid →
  Forum.handleCreatePost titleValue contentValue o o_list s =
    mkRun (inr ()) s
          [EvPreventDefault;
           EvFetch (Forum.create_request title content);
           EvMessage (Lit "Session expired. Please login again.") "error";
           EvTimeout HideMessage 5000;
           EvTimeout ExpireSession 2000].
Proof.
  revert title_valid content_valid.
  unfold title_ok, content_ok, title, content.
  intros Ht%negb_true_iff Hc%negb_true_iff (d & -> & Hn & Hs)%classify_SessionInvalid.
  by script.
Qed.

Lemma createPost_error message :
  classify o = DomainError message →
  convertible message = true →
  Forum.handleCreatePost titleValue contentValue o o_list s =
    mkRun (inr ()) s
          [EvPreventDefault;
           EvFetch (Forum.create_request title content);
           EvMessage (Val message) "error";
           EvTimeout HideMessage 5000].
Proof.
  revert title_valid content_valid.
  unfold title_ok, content_ok, title, content.
  intros Ht%negb_true_iff Hc%negb_true_iff
    (st & d & -> & Hst%N.eqb_neq & Hn & Hs & ->)%classify_DomainError Hm.
  by script.
Qed.

Lemma createPost_error_unshown message :
  classify o = DomainError message →
  convertible message = false →
  Forum.handleCreatePost titleValue contentValue o o_list s =
    mkRun (inr ()) s
          [EvPreventDefault;
           EvFetch (Forum.create_request title content);
           EvConsoleError "Create post error:" TypeError;
           EvMessage (Lit "Failed to create post. Please try again.") "error";
           EvTimeout HideMessage 5000].
Proof.
  revert title_valid content_valid.
  unfold title_ok, content_ok, title, content.
  intros Ht%negb_true_iff Hc%negb_true_iff
    (st & d & -> & Hst%N.eqb_neq & Hn & Hs & ->)%classify_DomainError Hm.
  by script.
Qed.

Lemma createPost_transport :
  classify o = TransportFailure →
  ∃ e,
    Forum.handleCreatePost titleValue contentValue o o_list s =
      mkRun (inr ()) s
            [EvPreventDefault;
             EvFetch (Forum.create_request title content);
             EvConsoleError "Create post error:" e;
             EvMessage (Lit "Failed to create post. Please try again.") "error";
             EvTimeout HideMessage 5000].
Proof.
  revert title_valid content_valid.
  unfold title_ok, content_ok, title, content.
  intros Ht%negb_true_iff Hc%negb_true_iff [e He]%classify_TransportFailure.
  exists e. destruct He; by script.
Qed.

End CreatePost.




(** ** Registration, login and the entry page *)

Section Register.

Variables (nameValue emailValue passwordValue : jsstring).
Variables (o : FetchOutcome) (s : Storage).

Let name := trim nameValue.
Let email := trim emailValue.

Lemma register_bad_name :
  name_ok name = false →
  Auth.handleRegister nameValue emailValue passwordValue o s =
    mkRun (inr ()) s
          [EvPreventDefault;
           EvMessage (Lit "Name must be between 3 and 100 characters") "error";
           EvTimeout HideMessage 5000].
Proof. unfold name_ok, name. intros Hn%negb_false_iff. by script. Qed.

Lemma register_bad_email :
  name_ok name = true →
  email_ok email = false →
  Auth.handleRegister nameValue emailValue passwordValue o s =
    mkRun (inr ()) s
          [EvPreventDefault;
           EvMessage (Lit "Please enter a valid email address") "error";
           EvTimeout HideMessage 5000].
Proof.
  unfold name_ok, email_ok, name, email.
  intros Hn%negb_true_iff He%negb_false_iff. by script.
Qed.

Lemma register_bad_password :
  name_ok name = true →
  email_ok email = true →
  password_ok passwordValue = false →
  Auth.handleRegister nameValue emailValue passwordValue o s =
    mkRun (inr ()) s
          [EvPreventDefault;
           EvMessage (Lit "Password must be at least 6 characters long") "error";
           EvTimeout HideMessage 5000].
Proof.
  unfold name_ok, email_ok, password_ok, name, email.
  intros Hn%negb_true_iff He%negb_true_iff Hp%negb_false_iff. by script.
Qed.

Hypothesis name_valid : name_ok name = true.
Hypothesis email_valid : email_ok email = true.
Hypothesis password_valid : password_ok passwordValue = true.

Lemma register_ok data :
  classify o = Ok data →
  convertible (prop data "message") = true →
  Auth.handleRegister nameValue emailValue passwordValue o s =
    mkRun (inr ()) s
          [EvPreventDefault;
           EvLoading true;
           EvFetch (Auth.register_request name email passwordValue);
           EvLoading false;
           EvMessage (Cat (prop data "message") " Please login to continue.")
                     "success";
           EvTimeout HideMessage 5000;
           EvFormReset "registerForm"].
Proof.
  revert name_valid email_valid password_valid.
  unfold name_ok, email_ok, password_ok, name, email.
  intros Hn%negb_true_iff He%negb_true_iff Hp%negb_true_iff
    (st & -> & Hd & Hs)%classify_Ok Hm.
  by script.
Qed.

(** A success whose message cannot be converted: the concatenation
    throws before [showMessage] is called. *)
Lemma register_unannounced data :
  classify o = Ok data →
  convertible (prop data "message") = false →
  Auth.handleRegister nameValue emailValue passwordValue o s =
    mkRun (inr ()) s
          [EvPreventDefault;
           EvLoading true;
           EvFetch (Auth.register_request name email passwordValue);
           EvLoading false;
           EvLoading false;
           EvConsoleError "Registration error:" TypeError;
           EvMessage (Lit "Failed to connect to server. Please try again later.")
                     "error";
           EvTimeout HideMessage 5000].
Proof.
  revert name_valid email_valid password_valid.
  unfold name_ok, email_ok, password_ok, name, email.
  intros Hn%negb_true_iff He%negb_true_iff Hp%negb_true_iff
    (st & -> & Hd & Hs)%classify_Ok Hm.
  by script.
Qed.

(** Whatever the answer, a registration that passes the local checks
    sends its request and leaves the cache alone. *)
Lemma register_sent :
  let r := Auth.handleRegister nameValue emailValue passwordValue o s in
  result r = inr () ∧ store r = s ∧
  List.filter is_cache_write (log r) = [] ∧
  existsb is_fetch (log r) = true.
Proof.
  revert name_valid email_valid password_valid.
  unfold name_ok, email_ok, password_ok, name, email.
  intros Hn%negb_true_iff He%negb_true_iff Hp%negb_true_iff.
  destruct o as [|[st [|d]]]; try by script.
  destruct (nullish d) eqn:Hd; [by script|].
  destruct (convertible (prop d "message")) eqn:Hm;
    destruct (truthy (prop d "success")) eqn:Hs; by script.
Qed.

End Register.

Lemma createPost_sent titleValue contentValue o o_list s :
  title_ok (trim titleValue) = true →
  content_ok (trim contentValue) = true →
  existsb is_fetch (log (Forum.handleCreatePost titleValue contentValue o o_list s))
    = true.
Proof.
  intros Ht Hc.
  destruct (classify o) as [data|message| |] eqn:Ho.
  - destruct (convertible (prop data "message")) eqn:Hm.
    + by rewrite (createPost_ok _ _ _ o_list s Ht Hc _ Ho Hm).
    + by rewrite (createPost_unannounced _ _ _ o_list s Ht Hc _ Ho Hm).
  - destruct (convertible message) eqn:Hm.
    + by rewrite (createPost_error _ _ _ o_list s Ht Hc _ Ho Hm).
    + by rewrite (createPost_error_unshown _ _ _ o_list s Ht Hc _ Ho Hm).
  - by rewrite (createPost_expired _ _ _ o_list s Ht Hc Ho).
  - by destruct (createPost_transport _ _ _ o_list s Ht Hc Ho) as [e ->].
Qed.

(** C5, amended.  The local checks read the field values after
    [trim()] (title, content, name, email); the password is read as
    typed.  A create-post submission sends its request exactly when
    the trimmed title has 5 to 200 code units and the trimmed content
    10 to 5000; a registration sends its request exactly when the
    trimmed name has 3 to 100 code units, the trimmed email matches the
    pattern and has at most 100, and the password has at least 6.  When
    a check fails the handler shows the message of the first failing
    check and does nothing else. *)
Theorem local_validation_on_trimmed_values :
  (∀ titleValue contentValue o o_list s,
     let r := Forum.handleCreatePost titleValue contentValue o o_list s in
     let title := trim titleValue in
     let content := trim contentValue in
     (existsb is_fetch (log r) = true ↔
      (5 ≤ length title ≤ 200)%nat ∧ (10 ≤ length content ≤ 5000)%nat) ∧
     (¬ (5 ≤ length title ≤ 200)%nat →
      r = mkRun (inr ()) s
            [EvPreventDefault;
             EvMessage (Lit "Title must be between 5 and 200 characters") "error";
             EvTimeout HideMessage 5000]) ∧
     ((5 ≤ length title ≤ 200)%nat → ¬ (10 ≤ length content ≤ 5000)%nat →
      r = mkRun (inr ()) s
            [EvPreventDefault;
             EvMessage (Lit "Content must be between 10 and 5000 characters") "error";
             EvTimeout HideMessage 5000])) ∧
  (∀ nameValue emailValue password o s,
     let r := Auth.handleRegister nameValue emailValue password o s in
     let name := trim nameValue in
     let email := trim emailValue in
     (existsb is_fetch (log r) = true ↔
      (3 ≤ length name ≤ 100)%nat ∧
      (Auth.isValidEmail email = true ∧ (length email ≤ 100)%nat) ∧
      (6 ≤ length password)%nat) ∧
     (¬ (3 ≤ length name ≤ 100)%nat →
      r = mkRun (inr ()) s
            [EvPreventDefault;
             EvMessage (Lit "Name must be between 3 and 100 characters") "error";
             EvTimeout HideMessage 5000]) ∧
     ((3 ≤ length name ≤ 100)%nat →
      ¬ (Auth.isValidEmail email = true ∧ (length email ≤ 100)%nat) →
      r = mkRun (inr ()) s
            [EvPreventDefault;
             EvMessage (Lit "Please enter a valid email address") "error";
             EvTimeout HideMessage 5000]) ∧
     ((3 ≤ length name ≤ 100)%nat →
      Auth.isValidEmail email = true ∧ (length email ≤ 100)%nat →
      ¬ (6 ≤ length password)%nat →
      r = mkRun (inr ()) s
            [EvPreventDefault;
             EvMessage (Lit "Password must be at least 6 characters long") "error";
             EvTimeout HideMessage 5000])).
Proof.
  split.
  - intros titleValue contentValue o o_list s r title content. subst r title content.
    rewrite <- title_ok_bounds, <- content_ok_bounds.
    destruct (title_ok (trim titleValue)) eqn:Ht.
    + destruct (content_ok (trim contentValue)) eqn:Hc.
      * rewrite createPost_sent by done. by repeat split.
      * rewrite (createPost_bad_content _ _ o o_list s Ht Hc).
        split; [|by split]. split; [done|]. by intros [_ ?].
    + rewrite (createPost_bad_title _ contentValue o o_list s Ht).
      split; [|by split]. split; [done|]. by intros [? _].
  - intros nameValue emailValue password o s r name email. subst r name email.
    rewrite <- name_ok_bounds, <- email_ok_bounds, <- password_ok_bounds.
    destruct (name_ok (trim nameValue)) eqn:Hn.
    + destruct (email_ok (trim emailValue)) eqn:He.
      * destruct (password_ok password) eqn:Hp.
        -- destruct (register_sent _ _ _ o s Hn He Hp) as (_ & _ & _ & ->).
           by repeat split.
        -- rewrite (register_bad_password _ _ _ o s Hn He Hp).
           split; [|by repeat split]. split; [done|]. by intros (_ & _ & ?).
      * rewrite (register_bad_email _ _ password o s Hn He).
        split; [|by repeat split]. split; [done|]. by intros (_ & ? & _).
    + rewrite (register_bad_name _ emailValue password o s Hn).
      split; [|by repeat split]. split; [done|]. by intros (? & _).
Qed.

Lemma local_validation_on_trimmed_values_witness :
  existsb is_fetch
    (log (Forum.handleCreatePost some_title some_content answer_ok answer_ok
            cache_empty)) = true ∧
  Forum.handleCreatePost (js "Hi") (js "whatever this is long enough")
    answer_ok answer_ok cache_empty =
    mkRun (inr ()) cache_empty
          [EvPreventDefault;
           EvMessage (Lit "Title must be between 5 and 200 characters") "error";
           EvTimeout HideMessage 5000] ∧
  Auth.handleRegister (js "Ann Lee") (js "ann@example.org") (js "12345")
    answer_ok cache_empty =
    mkRun (inr ()) cache_empty
          [EvPreventDefault;
           EvMessage (Lit "Password must be at least 6 characters long") "error";
           EvTimeout HideMessage 5000].
Proof.
  destruct local_validation_on_trimmed_values as [Hpost Hregister].
  split; [|split].
  - apply (Hpost some_title some_content answer_ok answer_ok cache_empty).
    vm_compute. lia.
  - apply (Hpost (js "Hi") (js "whatever this is long enough")
             answer_ok answer_ok cache_empty).
    vm_compute. lia.
  - apply (Hregister (js "Ann Lee") (js "ann@example.org") (js "12345")
             answer_ok cache_empty).
    + vm_compute. lia.
    + vm_compute. split; [reflexivity | lia].
    + vm_compute. lia.
Defined.

(** C5 as stated fails on a value with surrounding blanks: a title of
    8 code units, of which 6 are spaces, lies within 5 to 200, the
    content is valid, and no request is sent; likewise a name of 6 code
    units of which 4 are spaces. *)
Lemma untrimmed_length_counterexample :
  length (js "   Hi   ") = 8 ∧
  content_ok (trim some_content) = true ∧
  Forum.handleCreatePost (js "   Hi   ") some_content answer_ok answer_ok
    cache_empty =
    mkRun (inr ()) cache_empty
          [EvPreventDefault;
           EvMessage (Lit "Title must be between 5 and 200 characters") "error";
           EvTimeout HideMessage 5000] ∧
  length (js "  Al  ") = 6 ∧
  Auth.handleRegister (js "  Al  ") (js "al@example.org") (js "secret1")
    answer_ok cache_empty =
    mkRun (inr ()) cache_empty
          [EvPreventDefault;
           EvMessage (Lit "Name must be between 3 and 100 characters") "error";
           EvTimeout HideMessage 5000].
Proof. by repeat split. Qed.

(** C6, amended.  A registration that passes the local checks and
    whose answer reports success returns with the cache as it was,
    having written or removed no entry, requested no navigation and
    armed no redirect.  When the message of the answer can be converted
    to a string, the registration shows it followed by
    " Please login to continue." and resets the registration form, and
    does nothing else. *)
Theorem registration_does_not_log_in nameValue emailValue password o s data :
  name_ok (trim nameValue) = true →
  email_ok (trim emailValue) = true →
  password_ok password = true →
  classify o = Ok data →
  let r := Auth.handleRegister nameValue emailValue password o s in
  result r = inr () ∧
  store r = s ∧
  store r !! "isLoggedIn" = s !! "isLoggedIn" ∧
  store r !! "user" = s !! "user" ∧
  List.filter is_cache_write (log r) = [] ∧
  List.filter is_navigation (log r) = [] ∧
  List.filter (is_timer OpenForum) (log r) = [] ∧
  (convertible (prop data "message") = true →
   log r =
     [EvPreventDefault;
      EvLoading true;
      EvFetch (Auth.register_request (trim nameValue) (trim emailValue) password);
      EvLoading false;
      EvMessage (Cat (prop data "message") " Please login to continue.") "success";
      EvTimeout HideMessage 5000;
      EvFormReset "registerForm"]).
Proof.
  intros Hn He Hp Hok r. subst r.
  destruct (convertible (prop data "message")) eqn:Hm.
  - by rewrite (register_ok _ _ _ o s Hn He Hp _ Hok Hm).
  - by rewrite (register_unannounced _ _ _ o s Hn He Hp _ Hok Hm).
Qed.

Lemma registration_does_not_log_in_witness :
  let r := Auth.handleRegister (js "Ann Lee") (js " ann@example.org ")
             (js "secret1") answer_ok cache_empty in
  result r = inr () ∧
  store r = cache_empty ∧
  store r !! "isLoggedIn" = cache_empty !! "isLoggedIn" ∧
  store r !! "user" = cache_empty !! "user" ∧
  List.filter is_cache_write (log r) = [] ∧
  List.filter is_navigation (log r) = [] ∧
  List.filter (is_timer OpenForum) (log r) = [] ∧
  log r =
    [EvPreventDefault;
     EvLoading true;
     EvFetch (Auth.register_request (trim (js "Ann Lee"))
                (trim (js " ann@example.org ")) (js "secret1"));
     EvLoading false;
     EvMessage (Cat (prop body_ok "message") " Please login to continue.")
               "success";
     EvTimeout HideMessage 5000;
     EvFormReset "registerForm"].
Proof.
  destruct (registration_does_not_log_in (js "Ann Lee") (js " ann@example.org ")
              (js "secret1") answer_ok cache_empty body_ok
              eq_refl eq_refl eq_refl eq_refl)
    as (Hres & Hst & Hflag & Huser & Hw & Hnav & Htimer & Hlog).
  exact (conj Hres (conj Hst (conj Hflag (conj Huser (conj Hw (conj Hnav
           (conj Htimer (Hlog eq_refl)))))))).
Defined.

(** C6 as stated fails on a success whose message cannot be converted
    to a string, here [{"toString": null}]: the input is valid, the
    answer reports success, and the registration ends in its [catch]
    block: no success message, no form reset.  The cache is untouched
    all the same. *)
Lemma registration_success_counterexample :
  name_ok (trim (js "Ann Lee")) = true ∧
  email_ok (trim (js "ann@example.org")) = true ∧
  password_ok (js "secret1") = true ∧
  classify (answer_with body_ok_stubborn) = Ok body_ok_stubborn ∧
  convertible (prop body_ok_stubborn "message") = false ∧
  (let r := Auth.handleRegister (js "Ann Lee") (js "ann@example.org")
              (js "secret1") (answer_with body_ok_stubborn) cache_empty in
   r = mkRun (inr ()) cache_empty
         [EvPreventDefault;
          EvLoading true;
          EvFetch (Auth.register_request (js "Ann Lee") (js "ann@example.org")
                     (js "secret1"));
          EvLoading false;
          EvLoading false;
          EvConsoleError "Registration error:" TypeError;
          EvMessage (Lit "Failed to connect to server. Please try again later.")
                    "error";
          EvTimeout HideMessage 5000] ∧
   List.filter is_form_reset (log r) = [] ∧
   existsb (λ e, match e with EvMessage _ "success" => true | _ => false end)
           (log r) = false).
Proof. by repeat split. Qed.

Section Login.

Variable JSON_stringify : value → jsstring.
Variables (emailValue password : jsstring).
Variables (o : FetchOutcome) (s : Storage).

Let email := trim emailValue.

Hypothesis email_valid : Auth.isValidEmail email = true.
Hypothesis password_given : password ≠ [].

Lemma login_ok data :
  classify o = Ok data →
  convertible (prop data "message") = true →
  let user := stringified JSON_stringify (prop data "data") in
  Auth.handleLogin JSON_stringify emailValue password o s =
    mkRun (inr ())
          (<["isLoggedIn" := js "true"]> (<["user" := user]> s))
          [EvPreventDefault;
           EvLoading true;
           EvFetch (Auth.login_request email password);
           EvLoading false;
           EvSetItem "user" user;
           EvSetItem "isLoggedIn" (js "true");
           EvMessage (Cat (prop data "message") " Redirecting...") "success";
           EvTimeout HideMessage 5000;
           EvTimeout OpenForum 1000].
Proof.
  revert email_valid. unfold email.
  intros He (st & -> & Hd & Hs)%classify_Ok Hm. by script.
Qed.

(** A success whose message cannot be converted: the two entries are
    written, then the concatenation throws; the redirect is not
    armed. *)
Lemma login_unannounced data :
  classify o = Ok data →
  convertible (prop data "message") = false →
  let user := stringified JSON_stringify (prop data "data") in
  Auth.handleLogin JSON_stringify emailValue password o s =
    mkRun (inr ())
          (<["isLoggedIn" := js "true"]> (<["user" := user]> s))
          [EvPreventDefault;
           EvLoading true;
           EvFetch (Auth.login_request email password);
           EvLoading false;
           EvSetItem "user" user;
           EvSetItem "isLoggedIn" (js "true");
           EvLoading false;
           EvConsoleError "Login error:" TypeError;
           EvMessage
             (Lit "Failed to connect to server. Please try again later.")
             "error";
           EvTimeout HideMessage 5000].
Proof.
  revert email_valid. unfold email.
  intros He (st & -> & Hd & Hs)%classify_Ok Hm. by script.
Qed.

Lemma login_ok_store data :
  classify o = Ok data →
  let r := Auth.handleLogin JSON_stringify emailValue password o s in
  result r = inr () ∧
  store r = <["isLoggedIn" := js "true"]>
              (<["user" := stringified JSON_stringify (prop data "data")]> s).
Proof.
  intros Hok.
  destruct (convertible (prop data "message")) eqn:Hm.
  - by rewrite (login_ok _ Hok Hm).
  - by rewrite (login_unannounced _ Hok Hm).
Qed.

Lemma login_failure :
  reported_failure o = true →
  ∃ message,
    (convertible message = true ∧
     Auth.handleLogin JSON_stringify emailValue password o s =
       mkRun (inr ()) s
             [EvPreventDefault;
              EvLoading true;
              EvFetch (Auth.login_request email password);
              EvLoading false;
              EvMessage (Val message) "error";
              EvTimeout HideMessage 5000]) ∨
    (convertible message = false ∧
     Auth.handleLogin JSON_stringify emailValue password o s =
       mkRun (inr ()) s
             [EvPreventDefault;
              EvLoading true;
              EvFetch (Auth.login_request email password);
              EvLoading false;
              EvLoading false;
              EvConsoleError "Login error:" TypeError;
              EvMessage
                (Lit "Failed to connect to server. Please try again later.")
                "error";
              EvTimeout HideMessage 5000]).
Proof.
  revert email_valid. unfold email.
  intros He (st & d & -> & Hd & Hs)%classify_failure.
  exists (prop d "message").
  destruct (convertible (prop d "message")) eqn:Hm; [left | right];
    (split; [done | by script]).
Qed.

Lemma login_transport :
  classify o = TransportFailure →
  ∃ e before,
    Auth.handleLogin JSON_stringify emailValue password o s =
      mkRun (inr ()) s
            ([EvPreventDefault;
              EvLoading true;
              EvFetch (Auth.login_request email password)] ++ before ++
             [EvLoading false;
              EvConsoleError "Login error:" e;
              EvMessage
                (Lit "Failed to connect to server. Please try again later.")
                "error";
              EvTimeout HideMessage 5000]) ∧
    (before = [] ∨ before = [EvLoading false]).
Proof.
  revert email_valid. unfold email.
  intros He [e Hthrown]%classify_TransportFailure. exists e.
  destruct Hthrown.
  - exists []. split; [by script | by left].
  - exists []. split; [by script | by left].
  - exists [EvLoading false]. split; [by script | by right].
Qed.

End Login.

(** C4.  For an email that matches the pattern once trimmed and a
    non-empty password: when the answer reports success, the login
    leaves the cache with the flag ["true"] and, under [user], the
    serialized record of the answer, every other entry as before; when
    the server reports a failure or the request ends in a transport
    failure, the cache is as it was and no entry has been written or
    removed. *)
Theorem login_cache_effect
    (JSON_stringify : value → jsstring) emailValue password o s :
  Auth.isValidEmail (trim emailValue) = true →
  password ≠ [] →
  let r := Auth.handleLogin JSON_stringify emailValue password o s in
  (∀ data, classify o = Ok data →
     let user := stringified JSON_stringify (prop data "data") in
     store r = <["isLoggedIn" := js "true"]> (<["user" := user]> s) ∧
     store r !! "isLoggedIn" = Some (js "true") ∧
     store r !! "user" = Some user) ∧
  (reported_failure o = true ∨ classify o = TransportFailure →
     store r = s ∧ List.filter is_cache_write (log r) = []).
Proof.
  intros He Hp r. subst r. split.
  - intros data Hok user.
    destruct (login_ok_store JSON_stringify _ _ _ s He Hp _ Hok) as [_ ->].
    split; [done|]. split.
    + apply lookup_insert_eq.
    + rewrite lookup_insert_ne by done. apply lookup_insert_eq.
  - intros [Hfail | Htr].
    + by destruct (login_failure JSON_stringify _ _ _ s He Hp Hfail)
        as [m [[_ ->] | [_ ->]]].
    + destruct (login_transport JSON_stringify _ _ _ s He Hp Htr)
        as (e & before & -> & [-> | ->]); by split.
Qed.

Lemma login_cache_effect_witness :
  (let r := Auth.handleLogin stringify_sample (js " ann@example.org")
              (js "secret1") answer_ok cache_empty in
   store r = <["isLoggedIn" := js "true"]>
               (<["user" := stringify_sample ann]> cache_empty) ∧
   store r !! "isLoggedIn" = Some (js "true") ∧
   store r !! "user" = Some (stringify_sample ann)) ∧
  (let r := Auth.handleLogin stringify_sample (js " ann@example.org")
              (js "secret1") answer_401 cache_flag_only in
   store r = cache_flag_only ∧ List.filter is_cache_write (log r) = []).
Proof.
  assert (Hp : js "secret1" ≠ []) by discriminate.
  split.
  - exact (proj1 (login_cache_effect stringify_sample (js " ann@example.org")
                    (js "secret1") answer_ok cache_empty eq_refl Hp)
             body_ok eq_refl).
  - exact (proj2 (login_cache_effect stringify_sample (js " ann@example.org")
                    (js "secret1") answer_401 cache_flag_only eq_refl Hp)
             (or_introl eq_refl)).
Defined.

Section EntryPage.

Variables (o : FetchOutcome) (s : Storage).

Lemma verify_not_logged_in :
  s !! "isLoggedIn" ≠ Some (js "true") →
  Auth.checkLoginStatus o s = mkRun (inr ()) s [].
Proof. intros Hflag. by script. Qed.

Hypothesis flag : s !! "isLoggedIn" = Some (js "true").

Lemma verify_ok data :
  classify o = Ok data →
  Auth.checkLoginStatus o s =
    mkRun (inr ()) s [EvFetch Auth.profile_request; EvNavigate "forum.html"].
Proof. intros (st & -> & Hd & Hs)%classify_Ok. by script. Qed.

Lemma verify_failure :
  reported_failure o = true →
  Auth.checkLoginStatus o s =
    mkRun (inr ()) (delete "isLoggedIn" (delete "user" s))
          [EvFetch Auth.profile_request;
           EvRemoveItem "user"; EvRemoveItem "isLoggedIn"].
Proof. intros (st & d & -> & Hd & Hs)%classify_failure. by script. Qed.

Lemma verify_transport :
  classify o = TransportFailure →
  ∃ e, Auth.checkLoginStatus o s =
         mkRun (inr ()) s
               [EvFetch Auth.profile_request;
                EvConsoleError "Session verification error:" e].
Proof.
  intros [e He]%classify_TransportFailure. exists e.
  destruct He; by script.
Qed.

End EntryPage.

(** The page load attaches its two listeners while the verification is
    in flight; that apart, it does what [checkLoginStatus] does. *)
Lemma entry_onLoad_runs o s :
  let page := Auth.onLoad o s in
  let check := Auth.checkLoginStatus o s in
  result page = result check ∧
  store page = store check ∧
  List.filter (λ e, negb (is_listener e)) (log page) = log check.
Proof.
  destruct (decide (s !! "isLoggedIn" = Some (js "true"))) as [Hflag|Hflag].
  - destruct o as [|[st [|d]]]; try by script.
    destruct (nullish d) eqn:Hd; [by script|].
    destruct (truthy (prop d "success")) eqn:Hs; by script.
  - by script.
Qed.

(** C10.  On a load of the entry page with the cached flag set, one
    profile request is sent: when its answer reports success the forum
    page is requested; when the server reports a failure both cache
    entries are removed, with no navigation and no message; when the
    request ends in a transport failure the cache is as it was, with no
    navigation and no message (the error goes to the console).  With
    the flag not set, nothing is sent and nothing happens.  The page
    load itself differs from [checkLoginStatus] only by the two form
    listeners it attaches. *)
Theorem entry_page_verification o s :
  let r := Auth.checkLoginStatus o s in
  (s !! "isLoggedIn" = Some (js "true") →
     (∀ data, classify o = Ok data →
        r = mkRun (inr ()) s
              [EvFetch Auth.profile_request; EvNavigate "forum.html"]) ∧
     (reported_failure o = true →
        r = mkRun (inr ()) (delete "isLoggedIn" (delete "user" s))
              [EvFetch Auth.profile_request;
               EvRemoveItem "user"; EvRemoveItem "isLoggedIn"] ∧
        cleared (store r)) ∧
     (classify o = TransportFailure →
        ∃ e, r = mkRun (inr ()) s
                   [EvFetch Auth.profile_request;
                    EvConsoleError "Session verification error:" e])) ∧
  (s !! "isLoggedIn" ≠ Some (js "true") → r = mkRun (inr ()) s []) ∧
  result (Auth.onLoad o s) = result r ∧
  store (Auth.onLoad o s) = store r ∧
  List.filter (λ e, negb (is_listener e)) (log (Auth.onLoad o s)) = log r.
Proof.
  intros r. subst r. split; [|split].
  - intros Hflag. split; [|split].
    + intros data Hok. by apply verify_ok with data.
    + intros Hfail. rewrite (verify_failure _ _ Hflag Hfail).
      split; [done | apply cleared_delete].
    + by apply verify_transport.
  - apply verify_not_logged_in.
  - apply entry_onLoad_runs.
Qed.

Lemma entry_page_verification_witness :
  Auth.checkLoginStatus answer_ok cache_flag_only =
    mkRun (inr ()) cache_flag_only
          [EvFetch Auth.profile_request; EvNavigate "forum.html"] ∧
  (Auth.checkLoginStatus answer_401 cache_flag_only =
     mkRun (inr ()) (delete "isLoggedIn" (delete "user" cache_flag_only))
           [EvFetch Auth.profile_request;
            EvRemoveItem "user"; EvRemoveItem "isLoggedIn"] ∧
   cleared (store (Auth.checkLoginStatus answer_401 cache_flag_only))) ∧
  (∃ e, Auth.checkLoginStatus answer_garbled cache_flag_only =
          mkRun (inr ()) cache_flag_only
                [EvFetch Auth.profile_request;
                 EvConsoleError "Session verification error:" e]) ∧
  Auth.checkLoginStatus answer_ok cache_empty = mkRun (inr ()) cache_empty [].
Proof.
  split; [|split; [|split]].
  - exact (proj1 (proj1 (entry_page_verification answer_ok cache_flag_only)
                    eq_refl) body_ok eq_refl).
  - exact (proj1 (proj2 (proj1 (entry_page_verification answer_401
                                   cache_flag_only) eq_refl)) eq_refl).
  - exact (proj2 (proj2 (proj1 (entry_page_verification answer_garbled
                                   cache_flag_only) eq_refl)) eq_refl).
  - apply (proj1 (proj2 (entry_page_verification answer_ok cache_empty))).
    discriminate.
Defined.

(** ** The 401 status *)

Lemma loadProfile_expiry J o s :
  existsb is_expiry_timer (log (Profile.loadProfile J o s)) = true ↔
  classify o = SessionInvalid.
Proof.
  rewrite loadProfile_runs. cbn.
  destruct (classify o) as [data|message| |] eqn:Hc.
  - destruct (nullish (prop data "data")) eqn:Hu.
    + by rewrite (loadProfile_resume_no_record J _ s _ Hc Hu).
    + destruct (showable (prop data "data")) eqn:Hshow.
      * by rewrite (loadProfile_resume_ok J _ s _ Hc Hshow).
      * destruct (loadProfile_resume_unshowable J _ s _ Hc Hu Hshow) as [n ->].
        by destruct n as [|[|[|[|n]]]].
  - destruct (convertible message) eqn:Hm.
    + by rewrite (loadProfile_resume_error J _ s _ Hc Hm).
    + by rewrite (loadProfile_resume_error_unshown J _ s _ Hc Hm).
  - by rewrite (loadProfile_resume_expired J _ s Hc).
  - by destruct (loadProfile_resume_transport J _ s Hc)
      as (e & before & -> & [-> | ->]).
Qed.

Lemma createPost_expiry titleValue contentValue o o_list s :
  title_ok (trim titleValue) = true →
  content_ok (trim contentValue) = true →
  existsb is_expiry_timer
    (log (Forum.handleCreatePost titleValue contentValue o o_list s)) = true ↔
  classify o = SessionInvalid.
Proof.
  intros Ht Hc.
  destruct (classify o) as [data|message| |] eqn:Ho.
  - destruct (convertible (prop data "message")) eqn:Hm.
    + rewrite (createPost_ok _ _ _ o_list s Ht Hc _ Ho Hm), loadPosts_runs.
      destruct (loadPosts_resume_safe o_list s) as (_ & _ & _ & _ & Hexp & _).
      cbn. by rewrite Hexp.
    + by rewrite (createPost_unannounced _ _ _ o_list s Ht Hc _ Ho Hm).
  - destruct (convertible message) eqn:Hm.
    + by rewrite (createPost_error _ _ _ o_list s Ht Hc _ Ho Hm).
    + by rewrite (createPost_error_unshown _ _ _ o_list s Ht Hc _ Ho Hm).
  - by rewrite (createPost_expired _ _ _ o_list s Ht Hc Ho).
  - by destruct (createPost_transport _ _ _ o_list s Ht Hc Ho) as [e ->].
Qed.

(** What the two flows do with an answer whose body cannot be parsed. *)
Lemma loadProfile_unparseable J st s :
  Profile.loadProfile J (Responded (mkResponse st Unparseable)) s =
    mkRun (inr ()) s
          [EvLoading true;
           EvFetch Profile.profile_request;
           EvLoading false;
           EvConsoleError "Load profile error:" JsonRejected;
           EvMessage (Lit "Failed to load profile information") "error";
           EvTimeout HideMessage 5000].
Proof. reflexivity. Qed.

Lemma createPost_unparseable titleValue contentValue st o_list s :
  title_ok (trim titleValue) = true →
  content_ok (trim contentValue) = true →
  Forum.handleCreatePost titleValue contentValue
    (Responded (mkResponse st Unparseable)) o_list s =
    mkRun (inr ()) s
          [EvPreventDefault;
           EvFetch (Forum.create_request (trim titleValue) (trim contentValue));
           EvConsoleError "Create post error:" JsonRejected;
           EvMessage (Lit "Failed to create post. Please try again.") "error";
           EvTimeout HideMessage 5000].
Proof.
  unfold title_ok, content_ok.
  intros Ht%negb_true_iff Hc%negb_true_iff. by script.
Qed.

(** C8, amended.  The scripts look at the status only after the body
    has said "no".  For a response of status 401, [loadProfile] and a
    create-post submission that passed the local checks run the expiry
    handling (the "session expired" message and the 2000 ms timer that
    clears the cache and requests the entry page) exactly when the body
    parses to a value other than [null] whose [success] is falsy.  A
    401 whose body reports success is handled as a success:
    [loadProfile] shows and stores the record, when there is one whose
    four fields can be converted, and the submission shows the message,
    resets the form and reloads the posts, when the message can be
    converted.  A 401 whose body cannot be parsed ends in the [catch]
    block, as a transport failure does: the error is logged, the
    generic message of the flow is shown, the cache is as it was and no
    expiry is armed. *)
Theorem status_401_read_after_body
    (JSON_stringify : value → jsstring) r titleValue contentValue o_list s :
  status r = 401%N →
  title_ok (trim titleValue) = true →
  content_ok (trim contentValue) = true →
  let o := Responded r in
  let p := Profile.loadProfile JSON_stringify o s in
  let c := Forum.handleCreatePost titleValue contentValue o o_list s in
  let title := trim titleValue in
  let content := trim contentValue in
  let refused :=
    ∃ d, body r = Parsed d ∧ nullish d = false ∧
         truthy (prop d "success") = false in
  (existsb is_expiry_timer (log p) = true ↔ refused) ∧
  (existsb is_expiry_timer (log c) = true ↔ refused) ∧
  (refused →
   p = mkRun (inr ()) s
         [EvLoading true;
          EvFetch Profile.profile_request;
          EvLoading false;
          EvMessage (Lit "Session expired. Please login again.") "error";
          EvTimeout HideMessage 5000;
          EvTimeout ExpireSession 2000] ∧
   c = mkRun (inr ()) s
         [EvPreventDefault;
          EvFetch (Forum.create_request title content);
          EvMessage (Lit "Session expired. Please login again.") "error";
          EvTimeout HideMessage 5000;
          EvTimeout ExpireSession 2000]) ∧
  (∀ d, body r = Parsed d → nullish d = false →
        truthy (prop d "success") = true →
        let user := prop d "data" in
        (showable user = true →
         p = mkRun (inr ()) (<["user" := JSON_stringify user]> s)
               [EvLoading true;
                EvFetch Profile.profile_request;
                EvLoading false;
                EvSetText "profileName" (Val (prop user "name"));
                EvSetText "profileEmail" (Val (prop user "email"));
                EvSetText "profileUserId" (Val (prop user "user_id"));
                EvSetText "profileCreatedAt" (DateOf (prop user "created_at"));
                EvDisplay "profileCard" "block";
                EvSetItem "user" (JSON_stringify user)]) ∧
        (convertible (prop d "message") = true →
         result c = inr () ∧ store c = s ∧
         log c =
           ([EvPreventDefault;
             EvFetch (Forum.create_request title content);
             EvMessage (Val (prop d "message")) "success";
             EvTimeout HideMessage 5000;
             EvFormReset "createPostForm";
             EvSetText "titleCount" (Lit "0");
             EvSetText "contentCount" (Lit "0");
             EvLoading true;
             EvFetch Forum.list_request] ++
            log (Forum.loadPosts_resume o_list s))%list)) ∧
  (body r = Unparseable →
   p = mkRun (inr ()) s
         [EvLoading true;
          EvFetch Profile.profile_request;
          EvLoading false;
          EvConsoleError "Load profile error:" JsonRejected;
          EvMessage (Lit "Failed to load profile information") "error";
          EvTimeout HideMessage 5000] ∧
   c = mkRun (inr ()) s
         [EvPreventDefault;
          EvFetch (Forum.create_request title content);
          EvConsoleError "Create post error:" JsonRejected;
          EvMessage (Lit "Failed to create post. Please try again.") "error";
          EvTimeout HideMessage 5000]).
Proof.
  intros Hst Ht Hc o p c title content refused.
  subst o p c title content refused.
  destruct r as [st b]. cbn [status body] in *. subst st.
  assert (Hrefused :
    classify (Responded (mkResponse 401 b)) = SessionInvalid ↔
    ∃ d, b = Parsed d ∧ nullish d = false ∧ truthy (prop d "success") = false).
  { rewrite classify_SessionInvalid. split.
    - intros (d & [= ->] & Hd & Hs). eauto.
    - intros (d & -> & Hd & Hs). eauto. }
  split; [|split; [|split; [|split]]].
  - rewrite <- Hrefused. apply loadProfile_expiry.
  - rewrite <- Hrefused. by apply createPost_expiry.
  - intros Hexp%Hrefused. split.
    + rewrite loadProfile_runs.
      by rewrite (loadProfile_resume_expired JSON_stringify _ s Hexp).
    + by apply createPost_expired.
  - intros d -> Hd Hs. cbv zeta.
    assert (Hok : classify (Responded (mkResponse 401 (Parsed d))) = Ok d).
    { cbn. by rewrite Hd, Hs. }
    split.
    + intros Hshow. rewrite loadProfile_runs.
      by rewrite (loadProfile_resume_ok JSON_stringify _ s _ Hok Hshow).
    + intros Hm.
      rewrite (createPost_ok _ _ _ o_list s Ht Hc _ Hok Hm), loadPosts_runs.
      destruct (loadPosts_resume_safe o_list s) as (Hres & Hstore & _).
      cbn. by rewrite Hres, Hstore.
  - intros ->. split.
    + apply loadProfile_unparseable.
    + by apply createPost_unparseable.
Qed.

Lemma status_401_read_after_body_witness :
  Profile.loadProfile stringify_sample answer_401 cache_flag_only =
    mkRun (inr ()) cache_flag_only
          [EvLoading true;
           EvFetch Profile.profile_request;
           EvLoading false;
           EvMessage (Lit "Session expired. Please login again.") "error";
           EvTimeout HideMessage 5000;
           EvTimeout ExpireSession 2000] ∧
  Forum.handleCreatePost some_title some_content answer_401 answer_ok
    cache_flag_only =
    mkRun (inr ()) cache_flag_only
          [EvPreventDefault;
           EvFetch (Forum.create_request (trim some_title) (trim some_content));
           EvMessage (Lit "Session expired. Please login again.") "error";
           EvTimeout HideMessage 5000;
           EvTimeout ExpireSession 2000].
Proof.
  exact (proj1 (proj2 (proj2
           (status_401_read_after_body stringify_sample
              (mkResponse 401 (Parsed body_failed)) some_title some_content
              answer_ok cache_flag_only eq_refl eq_refl eq_refl)))
           (ex_intro _ body_failed (conj eq_refl (conj eq_refl eq_refl)))).
Defined.

(** C8 as stated fails: a 401 whose body reports success is taken as a
    success.  [loadProfile] stores the record and arms no expiry; a
    create-post submission shows the success message and arms no
    expiry. *)
Lemma status_401_counterexample :
  status (mkResponse 401 (Parsed body_ok)) = 401%N ∧
  classify answer_401_ok = Ok body_ok ∧
  classify answer_401_ok ≠ classify_status_first answer_401_ok ∧
  existsb is_expiry_timer
    (log (Profile.loadProfile stringify_sample answer_401_ok cache_flag_only))
    = false ∧
  store (Profile.loadProfile stringify_sample answer_401_ok cache_flag_only)
    !! "user" = Some (stringify_sample ann) ∧
  existsb is_expiry_timer
    (log (Forum.handleCreatePost some_title some_content answer_401_ok
            answer_ok cache_flag_only)) = false ∧
  List.filter is_message
    (log (Forum.handleCreatePost some_title some_content answer_401_ok
            Unreachable cache_flag_only)) =
    [EvMessage (Val (VStr (js "Done."))) "success";
     EvMessage (Lit "Failed to connect to server") "error"].
Proof. by repeat split. Qed.

(** * Further properties of the scripts *)

Open Scope nat_scope.
Open Scope list_scope.

(** ** Trimming *)

Lemma trim_start_suffix s : ∃ blanks, s = (blanks ++ trim_start s)%list ∧
  Forall (λ c, is_space c = true) blanks.
Proof.
  induction s as [|c s (blanks & E & Hb)]; cbn.
  - by exists [].
  - destruct (is_space c) eqn:Hc.
    + exists (c :: blanks). split; [by rewrite E at 1 | by constructor].
    + by exists [].
Qed.

Lemma trim_start_head s c rest :
  trim_start s = c :: rest → is_space c = false.
Proof.
  induction s as [|x s IH]; cbn; [done|].
  destruct (is_space x) eqn:Hx; [done|]. by intros [= <- _].
Qed.

Lemma trim_start_length s : length (trim_start s) ≤ length s.
Proof.
  destruct (trim_start_suffix s) as (blanks & E & _).
  rewrite E at 2. rewrite length_app. lia.
Qed.

Lemma trim_start_blank s :
  Forall (λ c, is_space c = true) s → trim_start s = [].
Proof.
  induction 1 as [|c s Hc _ IH]; cbn; [done|]. by rewrite Hc.
Qed.

Lemma trim_start_clean s :
  (∀ c rest, s = c :: rest → is_space c = false) → trim_start s = s.
Proof.
  destruct s as [|c s]; cbn; [done|].
  intros H. by rewrite (H c s eq_refl).
Qed.

Lemma trim_length s : length (trim s) ≤ length s.
Proof.
  unfold trim. rewrite length_rev.
  etrans; [apply trim_start_length|]. rewrite length_rev.
  apply trim_start_length.
Qed.

Lemma trim_blank s : Forall (λ c, is_space c = true) s → trim s = [].
Proof.
  intros H. unfold trim. by rewrite (trim_start_blank s H).
Qed.

Lemma trim_clean s : Forall (λ c, is_space c = false) s → trim s = s.
Proof.
  intros H. unfold trim.
  rewrite (trim_start_clean s).
  - rewrite trim_start_clean; [apply rev_involutive|].
    intros c rest E.
    assert (Hin : In c (rev s)) by (rewrite E; by left).
    apply in_rev in Hin. rewrite Forall_forall in H.
    apply H. by apply list_elem_of_In.
  - intros c rest ->. by inversion H.
Qed.

(** The ends of a trimmed string are not blank. *)
Lemma trim_ends s :
  (∀ c rest, trim s = c :: rest → is_space c = false) ∧
  (∀ c rest, trim s = (rest ++ [c])%list → is_space c = false).
Proof.
  unfold trim. split; intros c rest E.
  - apply (f_equal (@rev N)) in E. rewrite rev_involutive in E. cbn in E.
    destruct (trim_start_suffix (rev (trim_start s))) as (blanks & Es & _).
    rewrite E in Es. apply (f_equal (@rev N)) in Es.
    rewrite rev_involutive, !rev_app_distr, rev_involutive in Es. cbn in Es.
    by apply (trim_start_head s c ((rest ++ rev blanks)%list)).
  - apply (f_equal (@rev N)) in E. rewrite rev_involutive, rev_app_distr in E.
    cbn in E. by apply (trim_start_head _ _ _ E).
Qed.

(** ** The email pattern *)

Lemma not_space_at_split c :
  Auth.not_space_at c = true ↔ is_space c = false ∧ c ≠ Auth.at_sign.
Proof.
  unfold Auth.not_space_at.
  rewrite negb_true_iff, orb_false_iff, N.eqb_neq. tauto.
Qed.

Lemma filter_at_sign_clean l :
  Forall (λ x, Auth.not_space_at x = true) l →
  List.filter (λ c, c =? Auth.at_sign)%N l = [].
Proof.
  induction 1 as [|c l Hc _ IH]; cbn; [done|].
  apply not_space_at_split in Hc as [_ Hc%N.eqb_neq]. by rewrite Hc.
Qed.

(** X2.  An email that [isValidEmail] accepts holds no blank at all and
    exactly one at sign, has at least five code units and is left as
    it is by [trim()]: trimming in the two forms only ever rescues an
    address with blanks around it. *)
Theorem valid_email_is_clean email :
  Auth.isValidEmail email = true →
  Forall (λ c, is_space c = false) email ∧
  List.filter (λ c, c =? Auth.at_sign)%N email = [Auth.at_sign] ∧
  5 ≤ length email ∧
  trim email = email.
Proof.
  intros (a & b & c & -> & Ha & Hb & Hc & F)%email_pattern_parts.
  assert (Hclean : Forall (λ c, is_space c = false)
                     (a ++ [Auth.at_sign] ++ b ++ [Auth.full_stop] ++ c)%list).
  { rewrite !Forall_app in F. destruct F as (Fa & Fb & Fc).
    assert (Hweak : ∀ l, Forall (λ x, Auth.not_space_at x = true) l →
                         Forall (λ c, is_space c = false) l).
    { intros l Hl. eapply Forall_impl; [exact Hl|].
      by intros x [? _]%not_space_at_split. }
    rewrite !Forall_app. repeat split; auto; by repeat constructor. }
  split; [done|]. split; [|split].
  - rewrite !Forall_app in F. destruct F as (Fa & Fb & Fc).
    rewrite !List.filter_app, (filter_at_sign_clean a),
      (filter_at_sign_clean b), (filter_at_sign_clean c) by done.
    done.
  - rewrite !length_app. cbn.
    destruct a; [done|]. destruct b; [done|]. destruct c; [done|]. cbn. lia.
  - by apply trim_clean.
Qed.

Lemma valid_email_is_clean_witness :
  Forall (λ c, is_space c = false) (js "ann@example.org") ∧
  List.filter (λ c, c =? Auth.at_sign)%N (js "ann@example.org") =
    [Auth.at_sign] ∧
  5 ≤ length (js "ann@example.org") ∧
  trim (js "ann@example.org") = js "ann@example.org".
Proof. exact (valid_email_is_clean (js "ann@example.org") eq_refl). Defined.

(** ** Escaping post text *)

Lemma escape_unit_cases c :
  (c = 38%N ∧ Forum.escape_unit c = [38; 97; 109; 112; 59]%N) ∨
  (c = 60%N ∧ Forum.escape_unit c = [38; 108; 116; 59]%N) ∨
  (c = 62%N ∧ Forum.escape_unit c = [38; 103; 116; 59]%N) ∨
  (c = 160%N ∧ Forum.escape_unit c = [38; 110; 98; 115; 112; 59]%N) ∨
  (c ≠ 38%N ∧ c ≠ 60%N ∧ c ≠ 62%N ∧ c ≠ 160%N ∧ Forum.escape_unit c = [c]).
Proof.
  unfold Forum.escape_unit.
  destruct (N.eqb_spec c 38) as [->|?]; [by left|].
  destruct (N.eqb_spec c 60) as [->|?]; [by right; left|].
  destruct (N.eqb_spec c 62) as [->|?]; [by right; right; left|].
  destruct (N.eqb_spec c 160) as [->|?]; [by right; right; right; left|].
  by repeat right.
Qed.

Lemma escapeHtml_cons c text :
  Forum.escapeHtml (c :: text) = Forum.escape_unit c ++ Forum.escapeHtml text.
Proof. reflexivity. Qed.

(** X3.  Whatever the string, what [escapeHtml] returns for it holds
    no angle bracket and no no-break space. *)
Theorem escapeHtml_no_markup text :
  Forall (λ c, c ≠ 60%N ∧ c ≠ 62%N ∧ c ≠ 160%N) (Forum.escapeHtml text).
Proof.
  induction text as [|c text IH]; cbn; [constructor|].
  rewrite Forall_app. split; [|done].
  destruct (escape_unit_cases c)
    as [[_ ->]|[[_ ->]|[[_ ->]|[[_ ->]|(_ & ? & ? & ? & ->)]]]];
    repeat constructor; done.
Qed.

(** X4.  [escapeHtml] loses nothing: two different texts are never
    escaped to the same string. *)
Theorem escapeHtml_injective text1 text2 :
  Forum.escapeHtml text1 = Forum.escapeHtml text2 → text1 = text2.
Proof.
  revert text2. induction text1 as [|a text1 IH]; intros [|b text2]; cbn.
  - done.
  - destruct (escape_unit_cases b)
      as [[_ ->]|[[_ ->]|[[_ ->]|[[_ ->]|(_ & _ & _ & _ & ->)]]]]; done.
  - destruct (escape_unit_cases a)
      as [[_ ->]|[[_ ->]|[[_ ->]|[[_ ->]|(_ & _ & _ & _ & ->)]]]]; done.
  - destruct (escape_unit_cases a)
      as [[-> ->]|[[-> ->]|[[-> ->]|[[-> ->]|(? & ? & ? & ? & ->)]]]];
    destruct (escape_unit_cases b)
      as [[-> ->]|[[-> ->]|[[-> ->]|[[-> ->]|(? & ? & ? & ? & ->)]]]];
    cbn; intros E; simplify_eq; try done; f_equal; by apply IH.
Qed.

Lemma escapeHtml_injective_witness :
  js "a<b & c" = [97; 60; 98; 32; 38; 32; 99]%N.
Proof.
  exact (escapeHtml_injective (js "a<b & c") [97; 60; 98; 32; 38; 32; 99]%N
           eq_refl).
Defined.

(** X5.  A text without ampersand, angle bracket or no-break space is
    returned as it is, and no text gets shorter: each code unit yields
    between one and six. *)
Theorem escapeHtml_plain_text text :
  (Forall (λ c, c ≠ 38%N ∧ c ≠ 60%N ∧ c ≠ 62%N ∧ c ≠ 160%N) text →
   Forum.escapeHtml text = text) ∧
  length text ≤ length (Forum.escapeHtml text) ≤ 6 * length text.
Proof.
  split.
  - induction 1 as [|c text (? & ? & ? & ?) _ IH]; [done|].
    rewrite escapeHtml_cons, IH.
    by destruct (escape_unit_cases c)
      as [[? _]|[[? _]|[[? _]|[[? _]|(_ & _ & _ & _ & ->)]]]].
  - induction text as [|c text IH]; [cbn; lia|].
    rewrite escapeHtml_cons, length_app.
    destruct (escape_unit_cases c)
      as [[_ ->]|[[_ ->]|[[_ ->]|[[_ ->]|(_ & _ & _ & _ & ->)]]]]; cbn; lia.
Qed.

Lemma escapeHtml_plain_text_witness :
  Forum.escapeHtml (js "Exam dates") = js "Exam dates" ∧
  length (js "a<b") ≤ length (Forum.escapeHtml (js "a<b")) ≤ 6 * length (js "a<b").
Proof.
  split.
  - apply (proj1 (escapeHtml_plain_text (js "Exam dates"))).
    vm_compute. repeat constructor; done.
  - apply (proj2 (escapeHtml_plain_text (js "a<b"))).
Defined.

(** ** Relative dates *)

(** X6.  What [formatDate] shows, by the age of the date in
    milliseconds: a date less than a minute old, or in the future, is
    'Just now'; from one minute up to an hour it is the whole minutes,
    then up to a day the whole hours, then up to seven days the whole
    days; from seven days on, and for a date that does not parse, it is
    the locale date. *)
Theorem formatDate_ranges (d : Z) :
  ((d < 60000)%Z → Forum.formatDate (Some d) = Forum.JustNow) ∧
  ((60000 ≤ d < 3600000)%Z →
   Forum.formatDate (Some d) =
     Forum.Ago (d / 60000) "minute" (bool_decide (120000 ≤ d)%Z)) ∧
  ((3600000 ≤ d < 86400000)%Z →
   Forum.formatDate (Some d) =
     Forum.Ago (d / 3600000) "hour" (bool_decide (7200000 ≤ d)%Z)) ∧
  ((86400000 ≤ d < 604800000)%Z →
   Forum.formatDate (Some d) =
     Forum.Ago (d / 86400000) "day" (bool_decide (172800000 ≤ d)%Z)) ∧
  ((604800000 ≤ d)%Z → Forum.formatDate (Some d) = Forum.LocaleDate) ∧
  Forum.formatDate None = Forum.LocaleDate.
Proof.
  unfold Forum.formatDate. cbv zeta.
  repeat split; try done; intros H;
    repeat match goal with
      | |- context [(?a <? ?b)%Z] => destruct (Z.ltb_spec a b)
      | |- context [bool_decide ?P] => destruct (bool_decide_reflect P)
      end;
    try done; exfalso; Z.to_euclidean_division_equations; lia.
Qed.

Lemma formatDate_ranges_witness :
  Forum.formatDate (Some (-5000)%Z) = Forum.JustNow ∧
  Forum.formatDate (Some 90000%Z) = Forum.Ago 1 "minute" false ∧
  Forum.formatDate (Some 7200000%Z) = Forum.Ago 2 "hour" true ∧
  Forum.formatDate (Some 604799999%Z) = Forum.Ago 6 "day" true ∧
  Forum.formatDate (Some 604800000%Z) = Forum.LocaleDate.
Proof.
  split; [|split; [|split; [|split]]].
  - apply (proj1 (formatDate_ranges (-5000))). lia.
  - apply (proj1 (proj2 (formatDate_ranges 90000))). lia.
  - apply (proj1 (proj2 (proj2 (formatDate_ranges 7200000)))). lia.
  - apply (proj1 (proj2 (proj2 (proj2 (formatDate_ranges 604799999))))). lia.
  - apply (proj1 (proj2 (proj2 (proj2 (proj2 (formatDate_ranges 604800000)))))).
    lia.
Defined.

(** X7.  A relative date never shows a count of zero: the count is at
    least 1, at most 59 minutes, 23 hours or 6 days, and the unit takes
    its plural [s] exactly when the count is above 1. *)
Theorem formatDate_counts diffMs n unit_name plural :
  Forum.formatDate diffMs = Forum.Ago n unit_name plural →
  (1 ≤ n)%Z ∧
  (plural = true ↔ (1 < n)%Z) ∧
  ((unit_name = "minute" ∧ (n ≤ 59)%Z) ∨
   (unit_name = "hour" ∧ (n ≤ 23)%Z) ∨
   (unit_name = "day" ∧ (n ≤ 6)%Z)).
Proof.
  destruct diffMs as [d|]; [|done]. unfold Forum.formatDate. cbv zeta.
  repeat match goal with
    | |- context [if (?a <? ?b)%Z then _ else _] =>
        destruct (Z.ltb_spec a b)
    end; try done; intros [= <- <- <-];
    (split; [|split; [rewrite Z.ltb_lt|]]);
    first [ done | Z.to_euclidean_division_equations; lia | idtac ].
  - left. split; [done | lia].
  - right; left. split; [done | lia].
  - right; right. split; [done | lia].
Qed.

Lemma formatDate_counts_witness :
  (1 ≤ 2)%Z ∧
  (true = true ↔ (1 < 2)%Z) ∧
  (("hour" = "minute" ∧ (2 ≤ 59)%Z) ∨
   ("hour" = "hour" ∧ (2 ≤ 23)%Z) ∨
   ("hour" = "day" ∧ (2 ≤ 6)%Z)).
Proof.
  exact (formatDate_counts (Some 7200000%Z) 2 "hour" true eq_refl).
Defined.

(** ** Going through the outcomes of a request *)

Ltac outcome_cases o :=
  let st := fresh "st" in
  let d := fresh "d" in
  destruct o as [|[st [|d]]];
  [ | | destruct (nullish d) eqn:?;
        [ | destruct (convertible (prop d "message")) eqn:?;
            (destruct (truthy (prop d "success")) eqn:?;
             [ | destruct (st =? 401)%N eqn:? ]) ] ].

Ltac classify_here :=
  unfold announced, succeeded, expired, reported_failure, classify; script.

Lemma succeeded_Ok o : succeeded o = true ↔ ∃ data, classify o = Ok data.
Proof.
  unfold succeeded.
  destruct (classify o); split; try done; eauto; by intros [? [=]].
Qed.

(** ** Pages and guards *)

(** X8.  A privileged page loaded with anything but the exact string
    ['true'] under [isLoggedIn] (no entry at all included) sends no
    request: the forum page and the profile page each request the entry
    page once and do nothing else, attaching no listener and leaving
    the cache as it is. *)
Theorem privileged_pages_without_flag
    (JSON_stringify : value → jsstring) o o_list s :
  s !! "isLoggedIn" ≠ Some (js "true") →
  Forum.checkAuthentication o s = mkRun (inr false) s [EvNavigate "index.html"] ∧
  Forum.onLoad o o_list s = mkRun (inr ()) s [EvNavigate "index.html"] ∧
  Profile.onLoad JSON_stringify o s = mkRun (inr ()) s [EvNavigate "index.html"].
Proof. intros Hflag. repeat split; by script. Qed.

Lemma privileged_pages_without_flag_witness :
  Forum.checkAuthentication answer_ok (<["isLoggedIn" := js "TRUE"]> cache_empty) =
    mkRun (inr false) (<["isLoggedIn" := js "TRUE"]> cache_empty)
          [EvNavigate "index.html"] ∧
  Forum.onLoad answer_ok answer_ok (<["isLoggedIn" := js "TRUE"]> cache_empty) =
    mkRun (inr ()) (<["isLoggedIn" := js "TRUE"]> cache_empty)
          [EvNavigate "index.html"] ∧
  Profile.onLoad stringify_sample answer_ok
    (<["isLoggedIn" := js "TRUE"]> cache_empty) =
    mkRun (inr ()) (<["isLoggedIn" := js "TRUE"]> cache_empty)
          [EvNavigate "index.html"].
Proof.
  apply (privileged_pages_without_flag stringify_sample answer_ok answer_ok
           (<["isLoggedIn" := js "TRUE"]> cache_empty)).
  vm_compute. discriminate.
Defined.

(** X9.  When the server answers the forum guard's confirmation with a
    failure, whatever the status, the guard removes both cache entries
    and requests the entry page at once, with no message and no delay,
    and the page load stops there; what it does to the cache and the
    location is what the expiry timer of [loadProfile] and
    [handleCreatePost] does when it fires. *)
Theorem forum_guard_rejection o o_list s :
  s !! "isLoggedIn" = Some (js "true") →
  reported_failure o = true →
  let r := Forum.checkAuthentication o s in
  result r = inr false ∧
  cleared (store r) ∧
  store r = store (fire ExpireSession s) ∧
  log r = EvFetch Forum.profile_request :: log (fire ExpireSession s) ∧
  List.filter is_message (log r) = [] ∧
  List.filter is_navigation (log r) = [EvNavigate "index.html"] ∧
  Forum.onLoad o o_list s = mkRun (inr ()) (store r) (log r).
Proof.
  intros Hflag Hfail r. subst r.
  rewrite forum_onLoad_blocked;
    rewrite (forum_guard_failure _ _ Hflag Hfail); [|done].
  repeat split; try done; apply cleared_delete.
Qed.

Lemma forum_guard_rejection_witness :
  let r := Forum.checkAuthentication answer_401 cache_flag_only in
  result r = inr false ∧
  cleared (store r) ∧
  store r = store (fire ExpireSession cache_flag_only) ∧
  log r = EvFetch Forum.profile_request :: log (fire ExpireSession cache_flag_only) ∧
  List.filter is_message (log r) = [] ∧
  List.filter is_navigation (log r) = [EvNavigate "index.html"] ∧
  Forum.onLoad answer_401 answer_ok cache_flag_only =
    mkRun (inr ()) (store r) (log r).
Proof.
  exact (forum_guard_rejection answer_401 answer_ok cache_flag_only
           eq_refl eq_refl).
Defined.

Ltac posts_shape :=
  repeat split; try done;
  first [ left; eexists; split; [reflexivity | discriminate]
        | right; left; eexists; reflexivity
        | right; right; eexists _, [];
          split; [reflexivity | by left]
        | right; right; eexists _, [EvLoading false];
          split; [reflexivity | by right] ].

(** The ways [loadPosts] can end once its request has settled. *)
Lemma loadPosts_resume_shapes o s :
  let r := Forum.loadPosts_resume o s in
  result r = inr () ∧ store r = s ∧
  ((∃ view, log r = [EvLoading false; EvPosts view] ∧ view ≠ LoadFailed) ∨
   (∃ message,
      log r = [EvLoading false; EvMessage (Val message) "error";
               EvTimeout HideMessage 5000; EvPosts LoadFailed]) ∨
   (∃ e before,
      log r = before ++
              [EvLoading false; EvConsoleError "Load posts error:" e;
               EvMessage (Lit "Failed to connect to server") "error";
               EvTimeout HideMessage 5000; EvPosts LoadFailed] ∧
      (before = [] ∨ before = [EvLoading false]))).
Proof.
  destruct o as [|[st [|d]]]; [script; posts_shape | script; posts_shape |].
  destruct (nullish d) eqn:Hd; [script; posts_shape|].
  destruct (truthy (prop d "success")) eqn:Hs.
  - script.
    destruct (prop d "data") as [| |b|f|str|items|props]; script;
      try posts_shape.
    + destruct str; script; posts_shape.
    + destruct items as [|post items]; script; [posts_shape|].
      rewrite mapM_createPostHTML.
      destruct (forallb _ _); script; posts_shape.
    + destruct (own_prop props (js "length")) as [| | |[]| | |]; script;
        posts_shape.
  - destruct (convertible (prop d "message")) eqn:Hm; script; posts_shape.
Qed.

Lemma not_succeeded o :
  reported_failure o = true ∨ classify o = TransportFailure →
  succeeded o = false.
Proof.
  unfold reported_failure, succeeded.
  destruct (classify o); intros [?|?]; done.
Qed.

Lemma loadPosts_resume_quiet o s :
  let l := log (Forum.loadPosts_resume o s) in
  List.filter is_listener l = [] ∧
  List.filter is_fetch l = [] ∧
  List.filter is_navigation l = [] ∧
  List.filter is_cache_write l = [] ∧
  List.filter (is_timer ExpireSession) l = [] ∧
  List.filter (is_timer OpenForum) l = [] ∧
  length (List.filter is_posts_view l) = 1 ∧
  spinner l = Some false ∧
  List.filter is_form_reset l = [].
Proof.
  destruct (loadPosts_resume_shapes o s)
    as (_ & _ & [(view & -> & _) | [(message & ->)
                | (e & before & -> & [-> | ->])]]);
    by repeat split.
Qed.

(** X10.  The forum page attaches its four listeners (post form, logout
    button, the two counters) and sends the list request exactly when
    the flag is set and the confirmation reported success; in every
    other case the page is left without any handler, and without the
    flag it sends nothing at all. *)
Theorem forum_page_proceeds_iff_authorized o o_list s :
  let page := log (Forum.onLoad o o_list s) in
  let flag := bool_decide (s !! "isLoggedIn" = Some (js "true")) in
  List.filter is_listener page =
    (if flag && succeeded o
     then [EvListen "createPostForm" "submit"; EvListen "logoutBtn" "click";
           EvListen "postTitle" "input"; EvListen "postContent" "input"]
     else []) ∧
  List.filter is_fetch page =
    (if flag
     then EvFetch Forum.profile_request ::
          (if succeeded o then [EvFetch Forum.list_request] else [])
     else []).
Proof.
  intros page flag. subst page flag.
  destruct (decide (s !! "isLoggedIn" = Some (js "true"))) as [Hflag|Hflag].
  - rewrite bool_decide_true by done.
    destruct (classify_cases o) as [[data Hok] | [Hfail | Htr]].
    + assert (Hs : succeeded o = true) by (apply succeeded_Ok; eauto).
      rewrite Hs, (forum_onLoad_authorized _ o_list _ _ Hflag Hok).
      cbn [log andb]. rewrite !List.filter_app.
      destruct (loadPosts_resume_quiet o_list s) as (-> & -> & _).
      by split.
    + rewrite (not_succeeded o) by auto.
      rewrite forum_onLoad_blocked;
        by rewrite (forum_guard_failure _ _ Hflag Hfail).
    + rewrite (not_succeeded o) by auto.
      destruct (forum_guard_transport _ _ Hflag Htr) as [e Hrun].
      rewrite forum_onLoad_blocked; by rewrite Hrun.
  - rewrite bool_decide_false by done.
    rewrite forum_onLoad_blocked;
      by rewrite (forum_guard_logged_out _ _ Hflag).
Qed.

(** ** Listing posts *)

(** A [null] among the posts makes the list unrenderable. *)
Lemma renderable_not_null items :
  forallb (λ post, negb (nullish post)) items = false →
  forallb renderable items = false.
Proof.
  induction items as [|post items IH]; cbn [forallb]; [done|].
  unfold renderable at 1. destruct (nullish post); cbn [negb andb]; [done|].
  intros H%IH. rewrite H. apply andb_false_r.
Qed.

(** X11.  When the list answer reports success and carries an array of
    posts, none of them [null] and each with a title, an author name, a
    date and a content that can be converted to a string, [loadPosts]
    writes the posts container once: the "no posts yet" placeholder for
    an empty array, with no error message, and otherwise all the posts,
    in the order of the answer.  The status of the response plays no
    part. *)
Theorem loadPosts_renders o s data items :
  classify o = Ok data →
  prop data "data" = VArr items →
  forallb renderable items = true →
  Forum.loadPosts o s =
    mkRun (inr ()) s
          [EvLoading true; EvFetch Forum.list_request; EvLoading false;
           EvPosts (if bool_decide (items = []) then NoPostsYet
                    else Posts items)].
Proof.
  intros (st & -> & Hd & Hs)%classify_Ok Hdata Hitems.
  script. rewrite Hdata. script.
  destruct items as [|post items]; script; [done|].
  rewrite mapM_createPostHTML, Hitems. by script.
Qed.

Lemma loadPosts_renders_witness :
  Forum.loadPosts (answer_with (body_posts [a_post])) cache_flag_only =
    mkRun (inr ()) cache_flag_only
          [EvLoading true; EvFetch Forum.list_request; EvLoading false;
           EvPosts (if bool_decide ([a_post] = []) then NoPostsYet
                    else Posts [a_post])].
Proof.
  exact (loadPosts_renders (answer_with (body_posts [a_post])) cache_flag_only
           (body_posts [a_post]) [a_post] eq_refl eq_refl eq_refl).
Defined.

(** X12.  When the list answer reports success but carries no [data],
    or an array with a [null] in it, [loadPosts] ends in its [catch]
    block: it shows nothing of the answer, writes the failure
    placeholder and tells the user that the server could not be
    reached, although it was. *)
Theorem loadPosts_malformed_success o s data :
  classify o = Ok data →
  nullish (prop data "data") = true ∨
  (∃ items, prop data "data" = VArr items ∧
            forallb (λ post, negb (nullish post)) items = false) →
  Forum.loadPosts o s =
    mkRun (inr ()) s
          [EvLoading true; EvFetch Forum.list_request;
           EvLoading false; EvLoading false;
           EvConsoleError "Load posts error:" TypeError;
           EvMessage (Lit "Failed to connect to server") "error";
           EvTimeout HideMessage 5000;
           EvPosts LoadFailed].
Proof.
  intros (st & -> & Hd & Hs)%classify_Ok [Hnull | (items & Hdata & Hitems)].
  - script. by destruct (prop data "data"); script.
  - script. rewrite Hdata. script.
    destruct items as [|post items]; [done|]. script.
    rewrite mapM_createPostHTML, (renderable_not_null _ Hitems). by script.
Qed.

Lemma loadPosts_malformed_success_witness :
  Forum.loadPosts (answer_with body_no_data) cache_flag_only =
    mkRun (inr ()) cache_flag_only
          [EvLoading true; EvFetch Forum.list_request;
           EvLoading false; EvLoading false;
           EvConsoleError "Load posts error:" TypeError;
           EvMessage (Lit "Failed to connect to server") "error";
           EvTimeout HideMessage 5000;
           EvPosts LoadFailed] ∧
  Forum.loadPosts (answer_with (body_posts [ann; VNull])) cache_flag_only =
    mkRun (inr ()) cache_flag_only
          [EvLoading true; EvFetch Forum.list_request;
           EvLoading false; EvLoading false;
           EvConsoleError "Load posts error:" TypeError;
           EvMessage (Lit "Failed to connect to server") "error";
           EvTimeout HideMessage 5000;
           EvPosts LoadFailed].
Proof.
  split.
  - exact (loadPosts_malformed_success (answer_with body_no_data)
             cache_flag_only body_no_data eq_refl (or_introl eq_refl)).
  - exact (loadPosts_malformed_success (answer_with (body_posts [ann; VNull]))
             cache_flag_only (body_posts [ann; VNull]) eq_refl
             (or_intror (ex_intro _ [ann; VNull] (conj eq_refl eq_refl)))).
Defined.

(** X13.  Whatever the list answer, a 401 included, [loadPosts] returns
    normally having sent its one request and written the posts
    container exactly once; it leaves the cache alone, requests no
    navigation and arms no expiry: an expired session shows here as a
    failed list only. *)
Theorem loadPosts_never_touches_session o s :
  let r := Forum.loadPosts o s in
  result r = inr () ∧
  store r = s ∧
  List.filter is_fetch (log r) = [EvFetch Forum.list_request] ∧
  length (List.filter is_posts_view (log r)) = 1 ∧
  List.filter is_navigation (log r) = [] ∧
  List.filter is_cache_write (log r) = [] ∧
  List.filter (is_timer ExpireSession) (log r) = [].
Proof.
  intros r. subst r. rewrite loadPosts_runs. cbn [result store log].
  destruct (loadPosts_resume_shapes o s) as (Hres & Hst & _).
  destruct (loadPosts_resume_quiet o s)
    as (_ & Hf & Hn & Hw & He & _ & Hv & _).
  cbn [List.filter is_fetch is_posts_view is_navigation is_cache_write is_timer].
  by rewrite Hf, Hn, Hw, He, Hv.
Qed.

Ltac expose_checks :=
  unfold title_ok, content_ok, name_ok, email_ok, password_ok in *;
  repeat match goal with
    | H : negb _ = true |- _ => apply negb_true_iff in H
    | H : negb _ = false |- _ => apply negb_false_iff in H
    end.

(** X14.  No handler leaves the spinner on once its request has
    settled: after [loadPosts] and [loadProfile] it is hidden whatever
    the answer; after a login or a registration it is hidden when the
    input passed the local checks and was never shown when it did
    not. *)
Theorem spinner_never_left_on
    (JSON_stringify : value → jsstring) o s nameValue emailValue password :
  spinner (log (Forum.loadPosts o s)) = Some false ∧
  spinner (log (Profile.loadProfile JSON_stringify o s)) = Some false ∧
  spinner (log (Auth.handleLogin JSON_stringify emailValue password o s)) =
    (if Auth.isValidEmail (trim emailValue) && negb (bool_decide (password = []))
     then Some false else None) ∧
  spinner (log (Auth.handleRegister nameValue emailValue password o s)) =
    (if name_ok (trim nameValue) && email_ok (trim emailValue) &&
        password_ok password
     then Some false else None).
Proof.
  split; [|split; [|split]].
  - rewrite loadPosts_runs. cbn [log].
    destruct (loadPosts_resume_shapes o s)
      as (_ & _ & [(view & -> & _) | [(message & ->)
                  | (e & before & -> & [-> | ->])]]); done.
  - rewrite loadProfile_runs. cbn [log].
    destruct (classify o) as [data|message| |] eqn:Hc.
    + destruct (nullish (prop data "data")) eqn:Hu.
      * by rewrite (loadProfile_resume_no_record JSON_stringify _ s _ Hc Hu).
      * destruct (showable (prop data "data")) eqn:Hshow.
        -- by rewrite (loadProfile_resume_ok JSON_stringify _ s _ Hc Hshow).
        -- destruct (loadProfile_resume_unshowable JSON_stringify _ s _
                       Hc Hu Hshow) as [n ->].
           by destruct n as [|[|[|[|n]]]].
    + destruct (convertible message) eqn:Hm.
      * by rewrite (loadProfile_resume_error JSON_stringify _ s _ Hc Hm).
      * by rewrite (loadProfile_resume_error_unshown JSON_stringify _ s _ Hc Hm).
    + by rewrite (loadProfile_resume_expired JSON_stringify _ s Hc).
    + by destruct (loadProfile_resume_transport JSON_stringify _ s Hc)
        as (e & before & -> & [-> | ->]).
  - destruct (Auth.isValidEmail (trim emailValue)) eqn:He; [|by script].
    destruct (decide (password = [])) as [Hp|Hp].
    + rewrite (bool_decide_true _ Hp). by script.
    + rewrite (bool_decide_false _ Hp). cbn [andb negb].
      outcome_cases o; by script.
  - destruct (name_ok (trim nameValue)) eqn:Hn;
      [|expose_checks; by script].
    destruct (email_ok (trim emailValue)) eqn:He;
      [|expose_checks; by script].
    destruct (password_ok password) eqn:Hp;
      [|expose_checks; by script].
    cbn [andb]. expose_checks. outcome_cases o; by script.
Qed.

(** ** Creating a post *)

Section CreatePostRuns.

Variables (titleValue contentValue : jsstring).
Variables (o o_list : FetchOutcome) (s : Storage).

Let r := Forum.handleCreatePost titleValue contentValue o o_list s.
Let valid := title_ok (trim titleValue) && content_ok (trim contentValue).

(** All that a create-post submission can leave in the log, by kind. *)
Lemma createPost_effects :
  result r = inr () ∧
  store r = s ∧
  List.filter is_fetch (log r) =
    (if valid
     then EvFetch (Forum.create_request (trim titleValue) (trim contentValue)) ::
          (if announced o then [EvFetch Forum.list_request] else [])
     else []) ∧
  List.filter is_form_reset (log r) =
    (if valid && announced o then [EvFormReset "createPostForm"] else []) ∧
  List.filter (is_timer ExpireSession) (log r) =
    (if valid && expired o then [EvTimeout ExpireSession 2000] else []) ∧
  List.filter is_navigation (log r) = [] ∧
  List.filter is_cache_write (log r) = [].
Proof.
  subst r valid.
  destruct (title_ok (trim titleValue)) eqn:Ht.
  2: { by rewrite (createPost_bad_title _ contentValue o o_list s Ht). }
  destruct (content_ok (trim contentValue)) eqn:Hc.
  2: { by rewrite (createPost_bad_content _ _ o o_list s Ht Hc). }
  cbn [andb]. unfold announced, expired.
  destruct (classify o) as [data|message| |] eqn:Ho.
  - destruct (convertible (prop data "message")) eqn:Hm.
    + rewrite (createPost_ok _ _ _ o_list s Ht Hc _ Ho Hm), loadPosts_runs.
      destruct (loadPosts_resume_shapes o_list s) as (Hres & Hst & _).
      destruct (loadPosts_resume_quiet o_list s)
        as (_ & Hf & Hn & Hw & He & _ & _ & _ & Hr).
      cbn [result store log]. rewrite !List.filter_app.
      cbn [List.filter is_fetch is_form_reset is_navigation is_cache_write
           is_timer app].
      by rewrite Hres, Hst, Hf, Hn, Hw, He, Hr.
    + by rewrite (createPost_unannounced _ _ _ o_list s Ht Hc _ Ho Hm).
  - destruct (convertible message) eqn:Hm.
    + by rewrite (createPost_error _ _ _ o_list s Ht Hc _ Ho Hm).
    + by rewrite (createPost_error_unshown _ _ _ o_list s Ht Hc _ Ho Hm).
  - by rewrite (createPost_expired _ _ _ o_list s Ht Hc Ho).
  - by destruct (createPost_transport _ _ _ o_list s Ht Hc Ho) as [e ->].
Qed.

End CreatePostRuns.

(** X15.  A create-post submission resets the form exactly when the
    input passed the local checks and the server reported success with
    a message that can be converted to a string: on every failure,
    local or remote, and on a success whose message cannot be shown,
    what the user typed stays in the form.  It sends the create request
    exactly when the input passed the checks, and the list request
    after it exactly when it resets the form. *)
Theorem createPost_resets_form_on_success_only
    titleValue contentValue o o_list s :
  let r := Forum.handleCreatePost titleValue contentValue o o_list s in
  let valid := title_ok (trim titleValue) && content_ok (trim contentValue) in
  List.filter is_form_reset (log r) =
    (if valid && announced o then [EvFormReset "createPostForm"] else []) ∧
  List.filter is_fetch (log r) =
    (if valid
     then EvFetch (Forum.create_request (trim titleValue) (trim contentValue)) ::
          (if announced o then [EvFetch Forum.list_request] else [])
     else []).
Proof.
  intros r valid.
  by destruct (createPost_effects titleValue contentValue o o_list s)
    as (_ & _ & ? & ? & _).
Qed.

(** X16.  A create-post submission never changes the cache and never
    requests a navigation itself, whatever the input and the answers:
    its one effect on the session is the expiry timer of 2000 ms, armed
    exactly when valid input met a 401 reporting failure. *)
Theorem createPost_defers_session_effects
    titleValue contentValue o o_list s :
  let r := Forum.handleCreatePost titleValue contentValue o o_list s in
  let valid := title_ok (trim titleValue) && content_ok (trim contentValue) in
  result r = inr () ∧
  store r = s ∧
  List.filter is_cache_write (log r) = [] ∧
  List.filter is_navigation (log r) = [] ∧
  List.filter (is_timer ExpireSession) (log r) =
    (if valid && expired o then [EvTimeout ExpireSession 2000] else []).
Proof.
  intros r valid.
  by destruct (createPost_effects titleValue contentValue o o_list s)
    as (? & ? & _ & _ & ? & ? & ?).
Qed.

(** X17.  Whatever is typed, a create request that leaves carries the
    session cookie and a title and a content that are within the
    bounds (5 to 200, 10 to 5000) and neither begin nor end with a
    blank: the server receives the values that were checked, not the
    values as typed. *)
Theorem createPost_sends_checked_values
    titleValue contentValue o o_list s req :
  In (EvFetch req) (log (Forum.handleCreatePost titleValue contentValue
                           o o_list s)) →
  path req = "/posts/create.php" →
  ∃ title content,
    req = mkRequest "/posts/create.php" "POST" true
            (Some [("title", title); ("content", content)]) ∧
    5 ≤ length title ≤ 200 ∧ 10 ≤ length content ≤ 5000 ∧
    (∀ c rest, title = c :: rest ∨ title = rest ++ [c] → is_space c = false) ∧
    (∀ c rest, content = c :: rest ∨ content = rest ++ [c] → is_space c = false).
Proof.
  intros Hin Hpath.
  assert (Hf : In (EvFetch req)
                 (List.filter is_fetch
                    (log (Forum.handleCreatePost titleValue contentValue
                            o o_list s)))) by (by apply filter_In).
  destruct (createPost_effects titleValue contentValue o o_list s)
    as (_ & _ & Hfetch & _).
  rewrite Hfetch in Hf. clear Hfetch Hin.
  destruct (title_ok (trim titleValue)) eqn:Ht; [|done].
  destruct (content_ok (trim contentValue)) eqn:Hc; [|done].
  cbn [andb] in Hf.
  assert (req = Forum.create_request (trim titleValue) (trim contentValue))
    as ->.
  { destruct Hf as [[= <-] | Hf]; [done|].
    destruct (announced o); [|done].
    destruct Hf as [[= <-] | []]. done. }
  exists (trim titleValue), (trim contentValue).
  apply title_ok_bounds in Ht. apply content_ok_bounds in Hc.
  split; [done|]. split; [done|]. split; [done|].
  split; intros c rest [E | E].
  - exact (proj1 (trim_ends titleValue) c rest E).
  - exact (proj2 (trim_ends titleValue) c rest E).
  - exact (proj1 (trim_ends contentValue) c rest E).
  - exact (proj2 (trim_ends contentValue) c rest E).
Qed.

Lemma createPost_sends_checked_values_witness :
  ∃ title content,
    Forum.create_request (js "Exam dates") (js "When are the exams?") =
      mkRequest "/posts/create.php" "POST" true
        (Some [("title", title); ("content", content)]) ∧
    5 ≤ length title ≤ 200 ∧ 10 ≤ length content ≤ 5000 ∧
    (∀ c rest, title = c :: rest ∨ title = rest ++ [c] → is_space c = false) ∧
    (∀ c rest, content = c :: rest ∨ content = rest ++ [c] → is_space c = false).
Proof.
  apply (createPost_sends_checked_values
           (js "  Exam dates ") (js " When are the exams?  ")
           answer_ok answer_ok cache_flag_only).
  - vm_compute. auto.
  - reflexivity.
Defined.

(** X18.  A field made of blanks only, the empty field included, never
    reaches the server: such a title or content is rejected by
    [handleCreatePost], and such a name by [handleRegister], with the
    message of that field. *)
Theorem blank_fields_are_rejected
    titleValue contentValue nameValue emailValue password o o_list s :
  (Forall (λ c, is_space c = true) titleValue →
   Forum.handleCreatePost titleValue contentValue o o_list s =
     mkRun (inr ()) s
           [EvPreventDefault;
            EvMessage (Lit "Title must be between 5 and 200 characters") "error";
            EvTimeout HideMessage 5000]) ∧
  (title_ok (trim titleValue) = true →
   Forall (λ c, is_space c = true) contentValue →
   Forum.handleCreatePost titleValue contentValue o o_list s =
     mkRun (inr ()) s
           [EvPreventDefault;
            EvMessage (Lit "Content must be between 10 and 5000 characters") "error";
            EvTimeout HideMessage 5000]) ∧
  (Forall (λ c, is_space c = true) nameValue →
   Auth.handleRegister nameValue emailValue password o s =
     mkRun (inr ()) s
           [EvPreventDefault;
            EvMessage (Lit "Name must be between 3 and 100 characters") "error";
            EvTimeout HideMessage 5000]).
Proof.
  split; [|split].
  - intros Hb. apply createPost_bad_title. by rewrite (trim_blank _ Hb).
  - intros Ht Hb. apply createPost_bad_content; [done|].
    by rewrite (trim_blank _ Hb).
  - intros Hb. apply register_bad_name. by rewrite (trim_blank _ Hb).
Qed.

Lemma blank_fields_are_rejected_witness :
  Forum.handleCreatePost [] some_content answer_ok answer_ok cache_empty =
    mkRun (inr ()) cache_empty
          [EvPreventDefault;
           EvMessage (Lit "Title must be between 5 and 200 characters") "error";
           EvTimeout HideMessage 5000] ∧
  Forum.handleCreatePost some_title (js "            ") answer_ok answer_ok
    cache_empty =
    mkRun (inr ()) cache_empty
          [EvPreventDefault;
           EvMessage (Lit "Content must be between 10 and 5000 characters") "error";
           EvTimeout HideMessage 5000] ∧
  Auth.handleRegister (js "    ") (js "ann@example.org") (js "secret1")
    answer_ok cache_empty =
    mkRun (inr ()) cache_empty
          [EvPreventDefault;
           EvMessage (Lit "Name must be between 3 and 100 characters") "error";
           EvTimeout HideMessage 5000].
Proof.
  split; [|split].
  - apply (proj1 (blank_fields_are_rejected [] some_content [] [] []
                    answer_ok answer_ok cache_empty)).
    constructor.
  - apply (proj1 (proj2 (blank_fields_are_rejected some_title
                           (js "            ") [] [] []
                           answer_ok answer_ok cache_empty))).
    + reflexivity.
    + vm_compute. repeat constructor.
  - apply (proj2 (proj2 (blank_fields_are_rejected [] []
                           (js "    ") (js "ann@example.org") (js "secret1")
                           answer_ok answer_ok cache_empty))).
    vm_compute. repeat constructor.
Defined.

(** X19.  The counter beside a field shows the length of the field as
    typed, blanks included, which is never below the length the
    submission checks: a title whose counter shows less than 5, or a
    content whose counter shows less than 10, is always rejected. *)
Theorem counter_bounds_the_checked_length
    titleValue contentValue o o_list s :
  (∃ n, Forum.updateCharCount titleValue "titleCount" s =
          mkRun (inr ()) s [EvSetText "titleCount" (Lit (pretty n))] ∧
        n = length titleValue ∧ length (trim titleValue) ≤ n) ∧
  (length titleValue < 5 →
   Forum.handleCreatePost titleValue contentValue o o_list s =
     mkRun (inr ()) s
           [EvPreventDefault;
            EvMessage (Lit "Title must be between 5 and 200 characters") "error";
            EvTimeout HideMessage 5000]) ∧
  (title_ok (trim titleValue) = true → length contentValue < 10 →
   Forum.handleCreatePost titleValue contentValue o o_list s =
     mkRun (inr ()) s
           [EvPreventDefault;
            EvMessage (Lit "Content must be between 10 and 5000 characters") "error";
            EvTimeout HideMessage 5000]).
Proof.
  split; [|split].
  - exists (length titleValue). split; [done|]. split; [done|]. apply trim_length.
  - intros Hlen. apply createPost_bad_title.
    apply not_true_is_false. intros H%title_ok_bounds.
    pose proof (trim_length titleValue). lia.
  - intros Ht Hlen. apply createPost_bad_content; [done|].
    apply not_true_is_false. intros H%content_ok_bounds.
    pose proof (trim_length contentValue). lia.
Qed.

Lemma counter_bounds_the_checked_length_witness :
  Forum.handleCreatePost (js "Hi") some_content answer_ok answer_ok cache_empty =
    mkRun (inr ()) cache_empty
          [EvPreventDefault;
           EvMessage (Lit "Title must be between 5 and 200 characters") "error";
           EvTimeout HideMessage 5000] ∧
  Forum.handleCreatePost some_title (js "too short") answer_ok answer_ok
    cache_empty =
    mkRun (inr ()) cache_empty
          [EvPreventDefault;
           EvMessage (Lit "Content must be between 10 and 5000 characters") "error";
           EvTimeout HideMessage 5000].
Proof.
  split.
  - apply (proj1 (proj2 (counter_bounds_the_checked_length (js "Hi")
                           some_content answer_ok answer_ok cache_empty))).
    vm_compute. lia.
  - apply (proj2 (proj2 (counter_bounds_the_checked_length some_title
                           (js "too short") answer_ok answer_ok cache_empty))).
    + reflexivity.
    + vm_compute. lia.
Defined.

(** ** Loading the profile *)

(** X20.  Whatever the answer, [loadProfile] returns normally, requests
    no navigation, and leaves every cache entry but [user] as it was,
    the logged-in flag included: either the whole cache is unchanged,
    or the answer reported success with a record and that record,
    serialized, is the new [user]. *)
Theorem loadProfile_writes_user_only (JSON_stringify : value → jsstring) o s :
  let r := Profile.loadProfile JSON_stringify o s in
  result r = inr () ∧
  List.filter is_navigation (log r) = [] ∧
  (∀ k, k ≠ "user" → store r !! k = s !! k) ∧
  (store r = s ∨
   ∃ data, classify o = Ok data ∧ nullish (prop data "data") = false ∧
           store r = <["user" := JSON_stringify (prop data "data")]> s).
Proof.
  intros r. subst r. rewrite loadProfile_runs. cbn [result store log].
  destruct (classify o) as [data|message| |] eqn:Hc.
  - destruct (nullish (prop data "data")) eqn:Hu.
    + rewrite (loadProfile_resume_no_record JSON_stringify _ s _ Hc Hu).
      repeat split; auto.
    + destruct (showable (prop data "data")) eqn:Hshow.
      * rewrite (loadProfile_resume_ok JSON_stringify _ s _ Hc Hshow).
        cbn [result store log]. repeat split; eauto.
        intros k Hk. by apply lookup_insert_ne.
      * destruct (loadProfile_resume_unshowable JSON_stringify _ s _
                    Hc Hu Hshow) as [n ->].
        destruct n as [|[|[|[|n]]]]; repeat split; auto.
  - destruct (convertible message) eqn:Hm.
    + rewrite (loadProfile_resume_error JSON_stringify _ s _ Hc Hm).
      repeat split; auto.
    + rewrite (loadProfile_resume_error_unshown JSON_stringify _ s _ Hc Hm).
      repeat split; auto.
  - rewrite (loadProfile_resume_expired JSON_stringify _ s Hc).
    repeat split; auto.
  - destruct (loadProfile_resume_transport JSON_stringify _ s Hc)
      as (e & before & -> & [-> | ->]); repeat split; auto.
Qed.

Lemma loadProfile_writes_user_only_witness :
  store (Profile.loadProfile stringify_sample answer_ok cache_flag_only)
    !! "isLoggedIn" = cache_flag_only !! "isLoggedIn".
Proof.
  assert (Hk : "isLoggedIn" ≠ "user") by discriminate.
  exact (proj1 (proj2 (proj2 (loadProfile_writes_user_only stringify_sample
                                answer_ok cache_flag_only)))
           "isLoggedIn" Hk).
Defined.

(** X21.  When the profile answer reports success but carries no
    record ([data] missing or [null]), [loadProfile] ends in its
    [catch] block: the profile card is not shown, nothing is written to
    the cache, and the user is told that the profile could not be
    loaded. *)
Theorem loadProfile_without_record (JSON_stringify : value → jsstring) o s data :
  classify o = Ok data →
  nullish (prop data "data") = true →
  Profile.loadProfile JSON_stringify o s =
    mkRun (inr ()) s
          [EvLoading true; EvFetch Profile.profile_request;
           EvLoading false; EvLoading false;
           EvConsoleError "Load profile error:" TypeError;
           EvMessage (Lit "Failed to load profile information") "error";
           EvTimeout HideMessage 5000].
Proof.
  intros Hok Hu. rewrite loadProfile_runs.
  by rewrite (loadProfile_resume_no_record JSON_stringify _ s _ Hok Hu).
Qed.

Lemma loadProfile_without_record_witness :
  Profile.loadProfile stringify_sample (answer_with body_no_data)
    cache_flag_only =
    mkRun (inr ()) cache_flag_only
          [EvLoading true; EvFetch Profile.profile_request;
           EvLoading false; EvLoading false;
           EvConsoleError "Load profile error:" TypeError;
           EvMessage (Lit "Failed to load profile information") "error";
           EvTimeout HideMessage 5000].
Proof.
  exact (loadProfile_without_record stringify_sample (answer_with body_no_data)
           cache_flag_only body_no_data eq_refl eq_refl).
Defined.

(** ** Login and registration *)

(** X22.  A login whose email does not match the pattern once trimmed,
    or whose password is empty, stops at the first failing check: it
    shows that check's message, sends nothing, never shows the spinner
    and leaves the cache as it was.  The email is checked first. *)
Theorem login_rejects_locally
    (JSON_stringify : value → jsstring) emailValue password o s :
  (Auth.isValidEmail (trim emailValue) = false →
   Auth.handleLogin JSON_stringify emailValue password o s =
     mkRun (inr ()) s
           [EvPreventDefault;
            EvMessage (Lit "Please enter a valid email address") "error";
            EvTimeout HideMessage 5000]) ∧
  (Auth.isValidEmail (trim emailValue) = true → password = [] →
   Auth.handleLogin JSON_stringify emailValue password o s =
     mkRun (inr ()) s
           [EvPreventDefault;
            EvMessage (Lit "Password is required") "error";
            EvTimeout HideMessage 5000]).
Proof.
  split.
  - intros He. by script.
  - intros He ->. by script.
Qed.

Lemma login_rejects_locally_witness :
  Auth.handleLogin stringify_sample (js "ann.example.org") [] answer_ok
    cache_empty =
    mkRun (inr ()) cache_empty
          [EvPreventDefault;
           EvMessage (Lit "Please enter a valid email address") "error";
           EvTimeout HideMessage 5000] ∧
  Auth.handleLogin stringify_sample (js "ann@example.org") [] answer_ok
    cache_empty =
    mkRun (inr ()) cache_empty
          [EvPreventDefault;
           EvMessage (Lit "Password is required") "error";
           EvTimeout HideMessage 5000].
Proof.
  split.
  - exact (proj1 (login_rejects_locally stringify_sample (js "ann.example.org")
                    [] answer_ok cache_empty) eq_refl).
  - exact (proj2 (login_rejects_locally stringify_sample (js "ann@example.org")
                    [] answer_ok cache_empty) eq_refl eq_refl).
Defined.

(** X23.  A login never requests a navigation itself.  It arms the
    redirect to the forum page, 1000 ms later, exactly when the input
    passed the local checks and the server reported success with a
    message that can be converted to a string; it sends its one request
    exactly when the input passed the checks, with the email trimmed
    and the password as typed. *)
Theorem login_redirects_on_success_only
    (JSON_stringify : value → jsstring) emailValue password o s :
  let r := Auth.handleLogin JSON_stringify emailValue password o s in
  let valid := Auth.isValidEmail (trim emailValue) &&
               negb (bool_decide (password = [])) in
  result r = inr () ∧
  List.filter is_navigation (log r) = [] ∧
  List.filter (is_timer OpenForum) (log r) =
    (if valid && announced o then [EvTimeout OpenForum 1000] else []) ∧
  List.filter is_fetch (log r) =
    (if valid
     then [EvFetch (Auth.login_request (trim emailValue) password)]
     else []) ∧
  (∀ s', fire OpenForum s' = mkRun (inr ()) s' [EvNavigate "forum.html"]).
Proof.
  intros r valid. subst r valid.
  destruct (Auth.isValidEmail (trim emailValue)) eqn:He; [|by script].
  destruct (decide (password = [])) as [Hp|Hp].
  { rewrite (bool_decide_true _ Hp). by script. }
  rewrite (bool_decide_false _ Hp). cbn [andb negb].
  outcome_cases o; classify_here; by repeat split.
Qed.

(** X24.  Login and the guards agree on the flag: in the cache a
    successful login leaves, every page finds the flag set, so that
    with a confirmation that reports success the forum guard and the
    profile guard let the page proceed and the entry page moves on to
    the forum. *)
Theorem login_then_guards
    (JSON_stringify : value → jsstring) emailValue password o s data o' data' :
  Auth.isValidEmail (trim emailValue) = true →
  password ≠ [] →
  classify o = Ok data →
  classify o' = Ok data' →
  let s' := store (Auth.handleLogin JSON_stringify emailValue password o s) in
  Forum.checkAuthentication o' s' =
    mkRun (inr true) s' [EvFetch Forum.profile_request] ∧
  Profile.checkAuthentication s' = mkRun (inr true) s' [] ∧
  Auth.checkLoginStatus o' s' =
    mkRun (inr ()) s' [EvFetch Auth.profile_request; EvNavigate "forum.html"].
Proof.
  intros He Hp Hok Hok' s'.
  assert (Hflag : s' !! "isLoggedIn" = Some (js "true")).
  { subst s'.
    destruct (login_ok_store JSON_stringify _ _ _ s He Hp _ Hok) as [_ ->].
    apply lookup_insert_eq. }
  split; [|split].
  - by apply forum_guard_ok with data'.
  - by apply profile_guard_true.
  - by apply verify_ok with data'.
Qed.

Lemma login_then_guards_witness :
  let s' := store (Auth.handleLogin stringify_sample (js "ann@example.org")
                     (js "secret1") answer_ok cache_empty) in
  Forum.checkAuthentication answer_ok s' =
    mkRun (inr true) s' [EvFetch Forum.profile_request] ∧
  Profile.checkAuthentication s' = mkRun (inr true) s' [] ∧
  Auth.checkLoginStatus answer_ok s' =
    mkRun (inr ()) s' [EvFetch Auth.profile_request; EvNavigate "forum.html"].
Proof.
  assert (Hp : js "secret1" ≠ []) by discriminate.
  exact (login_then_guards stringify_sample (js "ann@example.org")
           (js "secret1") answer_ok cache_empty body_ok answer_ok body_ok
           eq_refl Hp eq_refl eq_refl).
Defined.

(** X25.  Logout and expiry leave the same cache, and it is a cache
    every page reads as logged out: after either, the forum page and
    the profile page only request the entry page and the entry page
    sends nothing, whatever the server would answer; and a second
    expiry changes nothing more. *)
Theorem logged_out_everywhere
    (JSON_stringify : value → jsstring) o s o' o_list :
  let s' := store (fire ExpireSession s) in
  store (Forum.handleLogout o s) = s' ∧
  store (Profile.handleLogout o s) = s' ∧
  Forum.onLoad o' o_list s' = mkRun (inr ()) s' [EvNavigate "index.html"] ∧
  Profile.onLoad JSON_stringify o' s' =
    mkRun (inr ()) s' [EvNavigate "index.html"] ∧
  Auth.checkLoginStatus o' s' = mkRun (inr ()) s' [] ∧
  store (fire ExpireSession s') = s'.
Proof.
  intros s'. subst s'. rewrite fire_ExpireSession. cbn [store].
  destruct (cleared_delete s) as [Hu Hf].
  assert (Hflag : delete "isLoggedIn" (delete "user" s) !! "isLoggedIn"
                  ≠ Some (js "true")) by (by rewrite Hf).
  assert (Hagain : delete "isLoggedIn"
                     (delete "user" (delete "isLoggedIn" (delete "user" s))) =
                   delete "isLoggedIn" (delete "user" s))
    by (by rewrite (delete_id _ _ Hu), (delete_id _ _ Hf)).
  clear Hu Hf.
  split; [by outcome_cases o|]. split; [by destruct o|].
  split; [by script|]. split; [by script|]. split; [by script|].
  done.
Qed.

(** X26.  A registration never touches the session, whatever the input
    and the answer: it returns with the cache as it was, having written
    or removed no entry, requested no navigation and armed no redirect.
    It sends its one request exactly when the input passed the local
    checks, and resets the form exactly when, in addition, the server
    reported success with a message that can be converted to a
    string. *)
Theorem registration_never_touches_session
    nameValue emailValue password o s :
  let r := Auth.handleRegister nameValue emailValue password o s in
  let valid := name_ok (trim nameValue) && email_ok (trim emailValue) &&
               password_ok password in
  result r = inr () ∧
  store r = s ∧
  List.filter is_cache_write (log r) = [] ∧
  List.filter is_navigation (log r) = [] ∧
  List.filter (is_timer OpenForum) (log r) = [] ∧
  List.filter (is_timer ExpireSession) (log r) = [] ∧
  List.filter is_form_reset (log r) =
    (if valid && announced o then [EvFormReset "registerForm"] else []) ∧
  List.filter is_fetch (log r) =
    (if valid
     then [EvFetch (Auth.register_request (trim nameValue) (trim emailValue)
                      password)]
     else []).
Proof.
  intros r valid. subst r valid.
  destruct (name_ok (trim nameValue)) eqn:Hn;
    [|expose_checks; by script].
  destruct (email_ok (trim emailValue)) eqn:He;
    [|expose_checks; by script].
  destruct (password_ok password) eqn:Hp;
    [|expose_checks; by script].
  cbn [andb]. expose_checks.
  outcome_cases o; classify_here; by repeat split.
Qed.

(** ** What the user is told on a failure *)

Section FailureMessages.

Variable JSON_stringify : value → jsstring.
Variables (titleValue contentValue nameValue emailValue password : jsstring).
Variables (o_list : FetchOutcome) (s : Storage).

Hypothesis title_valid : title_ok (trim titleValue) = true.
Hypothesis content_valid : content_ok (trim contentValue) = true.
Hypothesis name_valid : name_ok (trim nameValue) = true.
Hypothesis email_valid : email_ok (trim emailValue) = true.
Hypothesis password_valid : password_ok password = true.





End FailureMessages.





(** ** Answers that cannot be shown *)

(** X29.  A login that passes the local checks and whose answer reports
    success with a message that cannot be converted to a string has
    written both cache entries when the concatenation throws: the
    session is established, the redirect is not armed, and the user is
    told that the server could not be reached. *)
Theorem login_success_without_redirect
    (JSON_stringify : value → jsstring) emailValue password o s data :
  Auth.isValidEmail (trim emailValue) = true →
  password ≠ [] →
  classify o = Ok data →
  convertible (prop data "message") = false →
  let user := stringified JSON_stringify (prop data "data") in
  Auth.handleLogin JSON_stringify emailValue password o s =
    mkRun (inr ())
          (<["isLoggedIn" := js "true"]> (<["user" := user]> s))
          [EvPreventDefault;
           EvLoading true;
           EvFetch (Auth.login_request (trim emailValue) password);
           EvLoading false;
           EvSetItem "user" user;
           EvSetItem "isLoggedIn" (js "true");
           EvLoading false;
           EvConsoleError "Login error:" TypeError;
           EvMessage
             (Lit "Failed to connect to server. Please try again later.")
             "error";
           EvTimeout HideMessage 5000].
Proof.
  intros He Hp Hok Hm. by apply login_unannounced.
Qed.

Lemma login_success_without_redirect_witness :
  Auth.handleLogin stringify_sample (js "ann@example.org") (js "secret1")
    (answer_with body_ok_stubborn) cache_empty =
    mkRun (inr ())
          (<["isLoggedIn" := js "true"]>
             (<["user" := stringify_sample ann]> cache_empty))
          [EvPreventDefault;
           EvLoading true;
           EvFetch (Auth.login_request (js "ann@example.org") (js "secret1"));
           EvLoading false;
           EvSetItem "user" (stringify_sample ann);
           EvSetItem "isLoggedIn" (js "true");
           EvLoading false;
           EvConsoleError "Login error:" TypeError;
           EvMessage
             (Lit "Failed to connect to server. Please try again later.")
             "error";
           EvTimeout HideMessage 5000].
Proof.
  assert (Hp : js "secret1" ≠ []) by discriminate.
  exact (login_success_without_redirect stringify_sample (js "ann@example.org")
           (js "secret1") (answer_with body_ok_stubborn) cache_empty
           body_ok_stubborn eq_refl Hp eq_refl eq_refl).
Defined.


